(** * lib/models.py: the advice parser and the exchange engine

    A shallow embedding of [TradeAdvisor._parseGptResponse] and of the class
    [Exchange] of lib/models.py, and of [TradeAdvisor.getTradeAdvice] and
    [ArticleProvider], with the parts of the Python runtime they rest on: exceptions, [str.split], [str.isdigit], [int], insertion-ordered
    dictionaries, [datetime]/[timedelta] arithmetic and binary64 floats.

    Conventions.
    - A Python [str] is a [string] whose characters are the code points
      U+0000..U+00FF; text with larger code points is outside the model.
    - A Python [float] is a primitive binary64 float ([PrimFloat.float]).
    - A method of [Exchange] is a function from the object's state to a result
      (a value or a raised exception) and the new state.  Mutations made
      before an exception is raised persist, as in Python.
    - Every call that leaves the process (the ccxt exchange object, the clock,
      the logger) is recorded in the state's [trace]; what the outside world
      answers is given by an oracle that sees the trace so far.

    The file has three parts: the model; the predicates and the example
    worlds the statements use; the lemmas and theorems, by topic (order
    execution, the parser, order amounts, selling, advice execution, the
    sweep, buying, the timestamp dictionaries, the snapshot, bulk
    liquidation, construction, the article provider, the advisor). *)

From Stdlib Require Import ZArith List String Ascii Bool Lia Floats.
Import ListNotations.

#[local] Set Warnings "-inexact-float".
Local Open Scope string_scope.
Local Open Scope Z_scope.

(** ** Exceptions and results *)

(** The exception classes the code can meet; all derive from [Exception].
    [ExchangeError] stands for whatever the ccxt object raises. *)
Inductive exn : Type :=
| KeyError (key : string)
| TypeError
| IndexError
| ValueError
| ZeroDivisionError
| OverflowError
| RuntimeError
| ExchangeError (code : nat).

Inductive Result (A : Type) : Type :=
| Ok (a : A)
| Raise (e : exn).
Arguments Ok {A} a.
Arguments Raise {A} e.

(** ** Strings *)

(** The characters [str.split()] treats as separators (those for which
    [str.isspace] holds), below U+0100. *)
Definition isspace (c : ascii) : bool :=
  let n := nat_of_ascii c in
  ((9 <=? n) && (n <=? 13) || (28 <=? n) && (n <=? 32)
   || (n =? 133) || (n =? 160))%nat.

Definition push_char (w : string) (c : ascii) : string :=
  w ++ String c EmptyString.

(** [split_from cur s]: the tokens of [s], where [cur] is the token being
    read ([None] between tokens). *)
Fixpoint split_from (cur : option string) (s : string) : list string :=
  match s with
  | EmptyString => match cur with Some w => [w] | None => [] end
  | String c s' =>
    if isspace c
    then match cur with
         | Some w => w :: split_from None s'
         | None => split_from None s'
         end
    else split_from (Some (push_char (match cur with Some w => w | None => "" end) c)) s'
  end.

(** [response.split()] *)
Definition split (s : string) : list string := split_from None s.

Definition is_ascii_digit (c : ascii) : bool :=
  let n := nat_of_ascii c in ((48 <=? n) && (n <=? 57))%nat.

(** One character of [str.isdigit]: the decimal digits and, below U+0100,
    the superscripts U+00B2, U+00B3 and U+00B9. *)
Definition isdigit_char (c : ascii) : bool :=
  let n := nat_of_ascii c in
  is_ascii_digit c || ((n =? 178) || (n =? 179) || (n =? 185))%nat.

Fixpoint all_chars (p : ascii -> bool) (s : string) : bool :=
  match s with
  | EmptyString => true
  | String c s' => p c && all_chars p s'
  end.

(** [s.isdigit()]: at least one character, all of them digits. *)
Definition isdigit (s : string) : bool :=
  match s with
  | EmptyString => false
  | _ => all_chars isdigit_char s
  end.

Fixpoint decimal_value (acc : Z) (s : string) : Z :=
  match s with
  | EmptyString => acc
  | String c s' => decimal_value (10 * acc + (Z.of_nat (nat_of_ascii c) - 48)) s'
  end.

(** [int(s)] on the strings the parser passes to it (those for which
    [isdigit] holds): a superscript digit is not a decimal literal.  The
    interpreter's optional limit on the length of the literal is not
    modelled. *)
Definition int (s : string) : Result Z :=
  match s with
  | EmptyString => Raise ValueError
  | _ => if all_chars is_ascii_digit s then Ok (decimal_value 0 s) else Raise ValueError
  end.

(** ** The named tuples *)

(** [TradeAdvice = namedtuple('TradeAdvice', ['position', 'asset', 'duration'])];
    [duration] is [None] or an [int]. *)
Record TradeAdvice : Type := mkTradeAdvice {
  advice_position : string;
  advice_asset : string;
  advice_duration : option Z
}.

(** [TradeOrder = namedtuple('Order', ['position', 'asset', 'amount', 'duration'])] *)
Record TradeOrder : Type := Order {
  position : string;
  asset : string;
  amount : float;
  duration : option Z
}.

(** Calling the named tuple: none of the four fields has a default, so a
    call that leaves the last positional argument out raises [TypeError].
    [duration_arg] is [None] when the call site passes three arguments and
    [Some d] when it passes [d] as the fourth. *)
Definition TradeOrder_call (position asset : string) (amount : float)
    (duration_arg : option (option Z)) : Result TradeOrder :=
  match duration_arg with
  | Some d => Ok (Order position asset amount d)
  | None => Raise TypeError
  end.

(** ** TradeAdvisor *)

(** [_parseGptResponse]; [Ok None] is the implicit [return None].  After
    [position, asset, *parts = parts] the name [parts] holds the tokens
    from the third on, and the two tests of the [buy] branch read that
    remainder. *)
Definition _parseGptResponse (response : string) : Result (option TradeAdvice) :=
  let parts := split response in
  if (List.length parts <=? 1)%nat then Ok None else
  match parts with
  | position :: asset :: parts =>
    if (position =? "sell")%string then Ok (Some (mkTradeAdvice position asset None))
    else if (position =? "buy")%string then
      if (List.length parts =? 2)%nat then Ok None else
      let asset := if (asset =? "all")%string then "AVAX" else asset in
      match parts with
      | [] => Raise IndexError
      | duration :: _ =>
        if negb (isdigit duration) then Ok None else
        match int duration with
        | Ok n => Ok (Some (mkTradeAdvice position asset (Some n)))
        | Raise e => Raise e
        end
      end
    else Ok None
  | _ => Ok None
  end.

(** ** Dictionaries

    A [dict] keeps its keys in insertion order, which is the order in which
    [items()] yields them; it is a list of bindings with no key twice. *)

Definition dict (V : Type) : Type := list (string * V).

(** [k in d] *)
Definition dict_contains {V} (k : string) (d : dict V) : bool :=
  existsb (fun kv => (fst kv =? k)%string) d.

(** [d[k]], [None] standing for [KeyError] *)
Fixpoint dict_get {V} (k : string) (d : dict V) : option V :=
  match d with
  | [] => None
  | (k', v) :: d' => if (k' =? k)%string then Some v else dict_get k d'
  end.

(** [d[k] = v]: a present key keeps its place, a new one goes last. *)
Fixpoint dict_set {V} (k : string) (v : V) (d : dict V) : dict V :=
  match d with
  | [] => [(k, v)]
  | (k', v') :: d' =>
    if (k' =? k)%string then (k', v) :: d' else (k', v') :: dict_set k v d'
  end.

(** What [del d[k]] leaves of [d] when [k] is present. *)
Definition dict_remove {V} (k : string) (d : dict V) : dict V :=
  filter (fun kv => negb (fst kv =? k)%string) d.

(** ** datetime and timedelta

    A [datetime] is the number of microseconds since [datetime.min]
    (0001-01-01 00:00:00); a [timedelta] is a number of microseconds. *)

Definition datetime : Type := Z.
Definition timedelta : Type := Z.

Definition us_per_hour : Z := 3600 * 1000000.
Definition us_per_day : Z := 24 * us_per_hour.

(** [date.max.toordinal()]: the days from 0001-01-01 to 9999-12-31. *)
Definition MAXORDINAL : Z := 3652059.

(** [timedelta(hours=duration)]: [None] is not a number ([TypeError]); the
    day count of a timedelta is limited to nine digits ([OverflowError]). *)
Definition timedelta_hours (duration : option Z) : Result timedelta :=
  match duration with
  | None => Raise TypeError
  | Some h =>
    let us := h * us_per_hour in
    let days := us / us_per_day in
    if (-999999999 <=? days) && (days <=? 999999999) then Ok us else Raise OverflowError
  end.

(** [t + d]: the sum has to be a date between [datetime.min] and
    [datetime.max] ([OverflowError], "date value out of range"). *)
Definition datetime_add (t : datetime) (d : timedelta) : Result datetime :=
  let r := t + d in
  if (0 <=? r) && (r <? MAXORDINAL * us_per_day) then Ok r else Raise OverflowError.

(** ** The outside world *)

(** What the logger is given, one constructor per call site of
    [self._logger.info] in [Exchange]. *)
Inductive log_record : Type :=
| executed (order : TradeOrder)
| failed_to_sell (asset : string) (e : exn)
| cannot_buy_no_USDT (asset : string)
| failed_to_buy (asset : string) (e : exn).

(** The calls that leave the process. *)
Inductive event : Type :=
| fetch_ticker (symbol : string)
| fetch_balance
| create_market_buy_order (symbol : string) (amount : float)
| create_market_sell_order (symbol : string) (amount : float)
| datetime_now
| logger_info (r : log_record).

(** The answers of the outside world, each a function of the calls made so
    far.  [ticker_last] is [fetch_ticker(symbol)['last']], taken to be a
    float when the call returns.  An entry of [balances] is
    [(info['asset'], info['free'])] with [info['free']] already read as a
    float, [None] when [float()] rejects it.  An order call returns (its
    result is not used) or raises. *)
Record World : Type := {
  ticker_last : list event -> string -> Result float;
  balances : list event -> Result (list (string * option float));
  market_buy : list event -> string -> float -> option exn;
  market_sell : list event -> string -> float -> option exn;
  clock : list event -> datetime
}.

(** ** Exchange *)

(** The attributes of an [Exchange] object, and the calls it has made. *)
Record Exchange : Type := mkExchange {
  max_fee : float;
  _asset_balances : dict float;
  _buy_time : dict datetime;
  _sell_time : dict datetime;
  trace : list event
}.

Definition set_asset_balances (d : dict float) (self : Exchange) : Exchange :=
  mkExchange (max_fee self) d (_buy_time self) (_sell_time self) (trace self).
Definition set_buy_time (d : dict datetime) (self : Exchange) : Exchange :=
  mkExchange (max_fee self) (_asset_balances self) d (_sell_time self) (trace self).
Definition set_sell_time (d : dict datetime) (self : Exchange) : Exchange :=
  mkExchange (max_fee self) (_asset_balances self) (_buy_time self) d (trace self).
Definition record_event (ev : event) (self : Exchange) : Exchange :=
  mkExchange (max_fee self) (_asset_balances self) (_buy_time self) (_sell_time self)
    (trace self ++ [ev]).

(** A method body: state in, result and state out. *)
Definition M (A : Type) : Type := Exchange -> Result A * Exchange.

Definition ret {A} (a : A) : M A := fun self => (Ok a, self).
Definition raise {A} (e : exn) : M A := fun self => (Raise e, self).
Definition bind {A B} (m : M A) (k : A -> M B) : M B :=
  fun self =>
    match m self with
    | (Ok a, self') => k a self'
    | (Raise e, self') => (Raise e, self')
    end.
Definition gets {A} (f : Exchange -> A) : M A := fun self => (Ok (f self), self).
Definition modify (f : Exchange -> Exchange) : M unit := fun self => (Ok tt, f self).
Definition lift {A} (r : Result A) : M A := fun self => (r, self).

(** [try: body / except Exception as e: handler e] *)
Definition try_except (body : M unit) (handler : exn -> M unit) : M unit :=
  fun self =>
    match body self with
    | (Ok tt, self') => (Ok tt, self')
    | (Raise e, self') => handler e self'
    end.

Declare Scope py_scope.
Delimit Scope py_scope with py.
Notation "x <- m ;; k" := (bind m (fun x => k))
  (at level 61, m at next level, right associativity) : py_scope.
Notation "m ;; k" := (bind m (fun _ => k))
  (at level 61, right associativity) : py_scope.
Local Open Scope py_scope.

Definition when (b : bool) (m : M unit) : M unit := if b then m else ret tt.

(** [for x in xs: body x], over a sequence that the body cannot change. *)
Fixpoint for_each {A} (xs : list A) (body : A -> M unit) : M unit :=
  match xs with
  | [] => ret tt
  | x :: xs' => body x ;; for_each xs' body
  end.

(** [for k, v in d.items(): body k v] over the dictionary that [get] reads
    from the object, [items] being the bindings not yet visited and [size]
    the size of the dictionary when the loop began: every step of the
    iterator first checks that the size is still the same. *)
Fixpoint for_items {V} (get : Exchange -> dict V) (size : nat)
    (items : dict V) (body : string -> V -> M unit) : M unit :=
  now_size <- gets (fun self => List.length (get self)) ;;
  if negb (now_size =? size)%nat then raise RuntimeError else
  match items with
  | [] => ret tt
  | (k, v) :: items' => body k v ;; for_items get size items' body
  end.

Section ExchangeMethods.

Variable world : World.

(** A call to the outside world: recorded, and answered from the calls
    made before it. *)
Definition ask {A} (ev : event) (answer : list event -> Result A) : M A :=
  fun self => (answer (trace self), record_event ev self).

Definition returns_or_raises (r : option exn) : Result unit :=
  match r with
  | None => Ok tt
  | Some e => Raise e
  end.

(** [datetime.now()] *)
Definition now : M datetime :=
  ask datetime_now (fun tr => Ok (clock world tr)).

(** [self._logger.info(...)] *)
Definition info (r : log_record) : M unit :=
  modify (record_event (logger_info r)).

(** [self._asset_balances[asset]] *)
Definition asset_balance (asset : string) : M float :=
  fun self =>
    match dict_get asset (_asset_balances self) with
    | Some v => (Ok v, self)
    | None => (Raise (KeyError asset), self)
    end.

(** [del self._buy_time[asset]] and [del self._sell_time[asset]] *)
Definition del_buy_time (asset : string) : M unit :=
  fun self =>
    if dict_contains asset (_buy_time self)
    then (Ok tt, set_buy_time (dict_remove asset (_buy_time self)) self)
    else (Raise (KeyError asset), self).

Definition del_sell_time (asset : string) : M unit :=
  fun self =>
    if dict_contains asset (_sell_time self)
    then (Ok tt, set_sell_time (dict_remove asset (_sell_time self)) self)
    else (Raise (KeyError asset), self).

(** A float division raises on a zero divisor (of either sign). *)
Definition _convertUsdtToAssetWithPrice (usdt_amount asset_price : float) : Result float :=
  if (asset_price =? 0)%float then Raise ZeroDivisionError
  else Ok (usdt_amount / asset_price)%float.

Definition _convertUsdtToAsset (asset : string) (usdt_amount : float) : M float :=
  asset_price <- ask (fetch_ticker (asset ++ "/USDT"))
                     (fun tr => ticker_last world tr (asset ++ "/USDT")) ;;
  lift (_convertUsdtToAssetWithPrice usdt_amount asset_price).

Definition _refreshBalances : M unit :=
  modify (set_asset_balances []) ;;
  exchange_balance <- ask fetch_balance (balances world) ;;
  for_each exchange_balance (fun info =>
    match snd info with
    | Some free =>
      modify (fun self =>
        set_asset_balances (dict_set (fst info) free (_asset_balances self)) self)
    | None => raise ValueError
    end).

Definition _executeOrder (order : TradeOrder) : M unit :=
  known <- gets (fun self => dict_contains (asset order) (_asset_balances self)) ;;
  when (negb known) _refreshBalances ;;
  known <- gets (fun self => dict_contains (asset order) (_asset_balances self)) ;;
  if negb known then ret tt else
  let symbol := asset order ++ "/USDT" in
  if (position order =? "buy")%string then
    ask (create_market_buy_order symbol (amount order))
        (fun tr => returns_or_raises (market_buy world tr symbol (amount order))) ;;
    bought <- now ;;
    modify (fun self => set_buy_time (dict_set (asset order) bought (_buy_time self)) self) ;;
    t <- now ;;
    d <- lift (timedelta_hours (duration order)) ;;
    expires <- lift (datetime_add t d) ;;
    modify (fun self => set_sell_time (dict_set (asset order) expires (_sell_time self)) self) ;;
    info (executed order)
  else if (position order =? "sell")%string then
    ask (create_market_sell_order symbol (amount order))
        (fun tr => returns_or_raises (market_sell world tr symbol (amount order))) ;;
    del_buy_time (asset order) ;;
    del_sell_time (asset order) ;;
    info (executed order)
  else ret tt.

(** [percent] is the int [100] or [20] at every call site; the product with
    a float converts it, exactly, to a float. *)
Definition _sellAsset (asset : string) (percent : float) : M unit :=
  try_except
    (balance <- asset_balance asset ;;
     fee <- gets max_fee ;;
     let amount_asset := (balance * percent / 100 * (1 - fee))%float in
     when (0 <? amount_asset)%float
       (order <- lift (TradeOrder_call "sell" asset amount_asset (Some None)) ;;
        _executeOrder order))
    (fun e => info (failed_to_sell asset e)).

Definition _buyAsset (asset : string) (percent : float) (duration : option Z) : M unit :=
  usdt <- asset_balance "USDT" ;;
  fee <- gets max_fee ;;
  let amount_usdt := (usdt * percent / 100 * (1 - fee))%float in
  when (amount_usdt =? 0)%float (info (cannot_buy_no_USDT asset)) ;;
  try_except
    (amount_asset <- _convertUsdtToAsset asset amount_usdt ;;
     when (0 <? amount_asset)%float
       (order <- lift (TradeOrder_call "buy" asset amount_asset (Some duration)) ;;
        _executeOrder order))
    (fun e => info (failed_to_buy asset e)).

(** The loop runs over the dictionary object that [self._asset_balances]
    names when it starts; [_refreshBalances] binds the attribute to a new
    dictionary and leaves that object as it is. *)
Definition _sellAllAssets : M unit :=
  items <- gets _asset_balances ;;
  for_each items (fun item =>
    when ((0 <? snd item)%float && negb (fst item =? "USDT")%string)
      (_sellAsset (fst item) 100)).

(** The order is built with three arguments. *)
Definition _sellOverdueAssets : M unit :=
  items <- gets _sell_time ;;
  for_items _sell_time (List.length items) items (fun asset time =>
    t <- now ;;
    when (time <? t)%Z
      (balance <- asset_balance asset ;;
       order <- lift (TradeOrder_call "sell" asset balance None) ;;
       _executeOrder order)).

Definition sellRequiredAssets : M unit := _sellOverdueAssets.

Definition executeTradeAdvice (advice : TradeAdvice) : M unit :=
  if (advice_position advice =? "buy")%string then
    _buyAsset (advice_asset advice) 20 (advice_duration advice)
  else if (advice_position advice =? "sell")%string then
    when (advice_asset advice =? "all")%string _sellAllAssets ;;
    known <- gets (fun self => dict_contains (advice_asset advice) (_asset_balances self)) ;;
    when known (_sellAsset (advice_asset advice) 100)
  else ret tt.

(** [Exchange.__init__], from the attribute assignments on; the result is
    the outcome of the constructor and the object as it then stands. *)
Definition Exchange__init__ (max_fee : float) : Result unit * Exchange :=
  (_refreshBalances ;; _sellAllAssets) (mkExchange max_fee [] [] [] []).

End ExchangeMethods.

(** ** TradeAdvisor.getTradeAdvice *)



(** ** ArticleProvider *)

(** An article is a JSON object; [getArticles] reads its ['title']. *)
Definition article : Type := dict string.

(** The calls of [getArticles] that leave the object: a getter, by its
    index, and the logger, with the title logged. *)
Inductive feed_event : Type :=
| article_getter (i : nat)
| trading_on_article (title : string).

(** What a getter answers, given the calls made so far: the sequence of
    [(article, article_time)] pairs it returns, or an exception. *)
Definition getter : Type := list feed_event -> Result (list (article * datetime)).

Record ArticleProvider : Type := mkArticleProvider {
  _article_getters : list getter;
  _last_article_times : list datetime;
  feed_trace : list feed_event
}.

(** [datetime(1970, 1, 1)] *)
Definition epoch : datetime := 719162 * us_per_day.

(** [ArticleProvider.__init__] *)
Definition ArticleProvider__init__ (article_getters : list getter) : ArticleProvider :=
  mkArticleProvider article_getters
    (repeat epoch (List.length article_getters)) [].

(** [l[i] = v] for an index within the list. *)
Fixpoint list_set {A} (i : nat) (v : A) (l : list A) : list A :=
  match l, i with
  | [], _ => []
  | _ :: l', O => v :: l'
  | x :: l', S i' => x :: list_set i' v l'
  end.

(** The inner loop of [getArticles] over the pairs of getter [i]:
    [articles] and [last_article_time] are the local variables, and the
    test reads [self._last_article_times[i]], which the loop leaves as it
    is. *)
Fixpoint read_articles (i : nat) (items : list (article * datetime))
    (articles : list article) (last_article_time : datetime)
    (self : ArticleProvider)
    : Result (list article * datetime) * ArticleProvider :=
  match items with
  | [] => (Ok (articles, last_article_time), self)
  | (art, article_time) :: items' =>
    match nth_error (_last_article_times self) i with
    | None => (Raise IndexError, self)
    | Some seen =>
      if seen <? article_time then
        let articles := (articles ++ [art])%list in
        let last_article_time :=
          if last_article_time <? article_time then article_time
          else last_article_time in
        match dict_get "title" art with
        | None => (Raise (KeyError "title"), self)
        | Some title =>
          read_articles i items' articles last_article_time
            (mkArticleProvider (_article_getters self) (_last_article_times self)
               (feed_trace self ++ [trading_on_article title]))
        end
      else read_articles i items' articles last_article_time self
    end
  end.

(** The outer loop, from index [i] on: [feeds] is what is left of
    [zip(self._last_article_times, self._article_getters)]. *)
Fixpoint poll_feeds (i : nat) (feeds : list (datetime * getter))
    (articles : list article) (self : ArticleProvider)
    : Result (list article) * ArticleProvider :=
  match feeds with
  | [] => (Ok articles, self)
  | (last_article_time, article_getter_i) :: feeds' =>
    let called :=
      mkArticleProvider (_article_getters self) (_last_article_times self)
        (feed_trace self ++ [article_getter i]) in
    match article_getter_i (feed_trace self) with
    | Raise e => (Raise e, called)
    | Ok items =>
      match read_articles i items articles last_article_time called with
      | (Raise e, self') => (Raise e, self')
      | (Ok (articles', last_article_time'), self') =>
        poll_feeds (S i) feeds' articles'
          (mkArticleProvider (_article_getters self')
             (list_set i last_article_time' (_last_article_times self'))
             (feed_trace self'))
      end
    end
  end.

(** [getArticles] *)
Definition getArticles (self : ArticleProvider) : Result (list article) * ArticleProvider :=
  poll_feeds 0 (combine (_last_article_times self) (_article_getters self)) [] self.

(** ** Observations on a run *)

(** The amount of an order call. *)
Definition order_amount (ev : event) : option float :=
  match ev with
  | create_market_buy_order _ a => Some a
  | create_market_sell_order _ a => Some a
  | _ => None
  end.

Definition is_order (ev : event) : bool :=
  match order_amount ev with Some _ => true | None => false end.

(** An event other than an order for an amount that is not above zero. *)
Definition positive_order (ev : event) : Prop :=
  forall a, order_amount ev = Some a -> (0 <? a)%float = true.

(** [self'] continues [self] with calls that all satisfy [P]. *)
Definition extends_with (P : event -> Prop) (self self' : Exchange) : Prop :=
  exists evs, trace self' = (trace self ++ evs)%list /\ Forall P evs.

(** The two position-timestamp dictionaries have the same keys. *)
Definition parity (self : Exchange) : Prop :=
  forall a, dict_contains a (_buy_time self) = dict_contains a (_sell_time self).

(** ** Worlds and objects for the examples *)

(** Noon of 2023-06-01. *)
Definition t0 : datetime := 738671 * us_per_day + 12 * us_per_hour.

(** An exchange that holds 1000 USDT and half a BTC, quotes every pair at
    25000 and accepts every order; the clock advances by a microsecond per
    call. *)
Definition calm : World := {|
  ticker_last := fun _ _ => Ok 25000%float;
  balances := fun _ => Ok [("USDT", Some 1000%float); ("BTC", Some 0.5%float)];
  market_buy := fun _ _ _ => None;
  market_sell := fun _ _ _ => None;
  clock := fun tr => t0 + Z.of_nat (List.length tr)
|}.

(** An object that tracks a BTC position bought ten hours before [t0] and
    due one hour before [t0]. *)
Definition holding_overdue_BTC : Exchange := {|
  max_fee := 0.001;
  _asset_balances := [("USDT", 1000%float); ("BTC", 0.5%float)];
  _buy_time := [("BTC", t0 - 10 * us_per_hour)];
  _sell_time := [("BTC", t0 - us_per_hour)];
  trace := []
|}.

(** An object whose snapshot holds BTC only, with no position tracked. *)
Definition only_BTC : Exchange := {|
  max_fee := 0.001;
  _asset_balances := [("BTC", 0.5%float)];
  _buy_time := [];
  _sell_time := [];
  trace := []
|}.

(** An object whose snapshot has an asset named [all]. *)
Definition with_asset_all : Exchange := {|
  max_fee := 0.001;
  _asset_balances := [("all", 2%float); ("BTC", 0.5%float)];
  _buy_time := [];
  _sell_time := [];
  trace := []
|}.

(** A world like [calm] whose clock stands still at [t0]. *)
Definition calm_at_noon : World := {|
  ticker_last := ticker_last calm;
  balances := balances calm;
  market_buy := market_buy calm;
  market_sell := market_sell calm;
  clock := fun _ => t0
|}.

(** A world like [calm] whose balance fetch answers the first call of a run
    and fails from then on. *)
Definition offline_after_start : World := {|
  ticker_last := ticker_last calm;
  balances := fun tr => match tr with [] => balances calm tr | _ => Raise (ExchangeError 0) end;
  market_buy := market_buy calm;
  market_sell := market_sell calm;
  clock := clock calm
|}.

(** An order for an asset that the exchange does not list. *)
Definition sell_one_DOGE : TradeOrder := Order "sell" "DOGE" 1 None.

(** The object right after construction against [calm]. *)
Definition constructed : Exchange := snd (Exchange__init__ calm 0.001).

(** The advice parsed from [buy BTC 100000000]. *)
Definition buy_BTC_for_ages : TradeAdvice := mkTradeAdvice "buy" "BTC" (Some 100000000).

(** ** Relations between the state before and after a run *)

(** Every run of [m] takes a state to one that [R] relates to it. *)
Definition steps (R : Exchange -> Exchange -> Prop) {A} (m : M A) : Prop :=
  forall self, R self (snd (m self)).

(** Every run of [m] extends the trace by events that satisfy
    [positive_order]. *)
Definition only_positive_orders {A} (m : M A) : Prop :=
  steps (extends_with positive_order) m.

Definition not_a_fetch (ev : event) : Prop := ev <> fetch_balance.

(** Only the snapshot differs. *)
Definition only_snapshot_differs (s s' : Exchange) : Prop :=
  trace s' = trace s /\ _buy_time s' = _buy_time s /\
  _sell_time s' = _sell_time s /\ max_fee s' = max_fee s.

(** The snapshot and the fee are the same. *)
Definition same_snapshot (s s' : Exchange) : Prop :=
  _asset_balances s' = _asset_balances s /\ max_fee s' = max_fee s.

(** The calls of a run are clock reads, and the three dictionaries and the
    fee are as before. *)
Definition only_reads_clock (s s' : Exchange) : Prop :=
  extends_with (fun ev => ev = datetime_now) s s' /\
  _asset_balances s' = _asset_balances s /\ _buy_time s' = _buy_time s /\
  _sell_time s' = _sell_time s /\ max_fee s' = max_fee s.

(** A run from a state with [parity] ends in a state with [parity]. *)
Definition keeps_parity (s s' : Exchange) : Prop := parity s -> parity s'.

(** The expiry of a buy with this duration can be computed whenever the
    clock is read. *)
Definition expiry_representable (world : World) (duration : option Z) : Prop :=
  exists delta,
    timedelta_hours duration = Ok delta /\
    forall tr, exists expires, datetime_add (clock world tr) delta = Ok expires.

(** ** Parts of the methods, named for the proofs *)

(** The part of [_executeOrder] after the two membership tests. *)
Definition submit_order (world : World) (order : TradeOrder) : M unit :=
  let symbol := asset order ++ "/USDT" in
  if (position order =? "buy")%string then
    ask (create_market_buy_order symbol (amount order))
        (fun tr => returns_or_raises (market_buy world tr symbol (amount order))) ;;
    bought <- now world ;;
    modify (fun self => set_buy_time (dict_set (asset order) bought (_buy_time self)) self) ;;
    t <- now world ;;
    d <- lift (timedelta_hours (duration order)) ;;
    expires <- lift (datetime_add t d) ;;
    modify (fun self => set_sell_time (dict_set (asset order) expires (_sell_time self)) self) ;;
    info (executed order)
  else if (position order =? "sell")%string then
    ask (create_market_sell_order symbol (amount order))
        (fun tr => returns_or_raises (market_sell world tr symbol (amount order))) ;;
    del_buy_time (asset order) ;;
    del_sell_time (asset order) ;;
    info (executed order)
  else ret tt.

(** The loop of [_refreshBalances]. *)
Definition store_balances (infos : list (string * option float)) : M unit :=
  for_each infos (fun info =>
    match snd info with
    | Some free =>
      modify (fun self =>
        set_asset_balances (dict_set (fst info) free (_asset_balances self)) self)
    | None => raise ValueError
    end).

(** The dictionary that the loop of [_refreshBalances] builds from [d]: it
    stops at the first entry whose amount does not read as a float. *)
Fixpoint stored (infos : list (string * option float)) (d : dict float) : dict float :=
  match infos with
  | [] => d
  | (a, Some free) :: infos' => stored infos' (dict_set a free d)
  | (a, None) :: _ => d
  end.

(** The exchange call that [_executeOrder] makes for a buy or a sell order. *)
Definition order_call (order : TradeOrder) : event :=
  if (position order =? "buy")%string
  then create_market_buy_order (asset order ++ "/USDT") (amount order)
  else create_market_sell_order (asset order ++ "/USDT") (amount order).

(** What the exchange answers to that call after the calls [tr]. *)
Definition order_answer (world : World) (order : TradeOrder) (tr : list event) : option exn :=
  if (position order =? "buy")%string
  then market_buy world tr (asset order ++ "/USDT") (amount order)
  else market_sell world tr (asset order ++ "/USDT") (amount order).

(** [self] with the calls [evs] added to its trace. *)
Definition record_events (evs : list event) (self : Exchange) : Exchange :=
  mkExchange (max_fee self) (_asset_balances self) (_buy_time self) (_sell_time self)
    (trace self ++ evs).

(** An object that tracks the BTC it holds, not yet due. *)
Definition holding_BTC : Exchange := {|
  max_fee := 0.001;
  _asset_balances := [("USDT", 1000%float); ("BTC", 0.5%float)];
  _buy_time := [("BTC", t0 - us_per_hour)];
  _sell_time := [("BTC", t0 + 4 * us_per_hour)];
  trace := []
|}.

(** A world like [calm] whose exchange turns every order down. *)
Definition rejecting : World := {|
  ticker_last := ticker_last calm;
  balances := balances calm;
  market_buy := fun _ _ _ => Some (ExchangeError 1);
  market_sell := fun _ _ _ => Some (ExchangeError 1);
  clock := clock calm
|}.

(** A call other than an order. *)
Definition not_an_order (ev : event) : Prop := is_order ev = false.


(** The amount [_sellAsset] computes for the whole of a balance. *)
Definition sell_amount (fee balance : float) : float :=
  (balance * 100 / 100 * (1 - fee))%float.

(** The entries of the snapshot that [_sellAllAssets] places an order for. *)
Definition liquidated (fee : float) (item : string * float) : bool :=
  (0 <? snd item)%float && negb (fst item =? "USDT")%string
  && (0 <? sell_amount fee (snd item))%float.

(** The order [_sellAllAssets] places for an entry of the snapshot. *)
Definition liquidation_order (fee : float) (item : string * float) : event :=
  create_market_sell_order (fst item ++ "/USDT") (sell_amount fee (snd item)).


(** A world like [calm] whose ticker quotes every pair at zero. *)
Definition quoting_zero : World := {|
  ticker_last := fun _ _ => Ok 0%float;
  balances := balances calm;
  market_buy := market_buy calm;
  market_sell := market_sell calm;
  clock := clock calm
|}.

(** The articles of a batch that are newer than [seen], in order. *)
Definition fresh (seen : datetime) (batch : list (article * datetime)) : list article :=
  map fst (filter (fun p => seen <? snd p) batch).

(** The latest of [seen] and the times of a batch. *)
Definition latest (seen : datetime) (batch : list (article * datetime)) : datetime :=
  fold_left Z.max (map snd batch) seen.

(** Every article of the batch has a title. *)
Definition titled (batch : list (article * datetime)) : Prop :=
  Forall (fun p => dict_get "title" (fst p) <> None) batch.

(** The getter answers every call with the batch. *)
Definition serves (g : getter) (batch : list (article * datetime)) : Prop :=
  forall tr, g tr = Ok batch.

(** Two articles, the first older than the second. *)
Definition two_articles : list (article * datetime) :=
  [([("title", "Rates held")], t0 - 2 * us_per_hour);
   ([("title", "ETF approved")], t0 - us_per_hour)].

(** A provider with one feed that serves [two_articles]. *)
Definition one_feed : ArticleProvider :=
  ArticleProvider__init__ [fun _ => Ok two_articles].

(** ** Reasoning about method bodies *)

Section Steps.

(** A relation between the state before and after that every primitive step
    respects is respected by every body built from such steps. *)
Variable R : Exchange -> Exchange -> Prop.
Hypothesis R_refl : forall s, R s s.
Hypothesis R_trans : forall s1 s2 s3, R s1 s2 -> R s2 s3 -> R s1 s3.

Lemma steps_ret {A} (a : A) : steps R (ret a).
Proof. intro self. apply R_refl. Qed.

Lemma steps_raise {A} (e : exn) : steps R (@raise A e).
Proof. intro self. apply R_refl. Qed.

Lemma steps_gets {A} (f : Exchange -> A) : steps R (gets f).
Proof. intro self. apply R_refl. Qed.

Lemma steps_lift {A} (r : Result A) : steps R (lift r).
Proof. intro self. apply R_refl. Qed.

Lemma steps_bind {A B} (m : M A) (k : A -> M B) :
  steps R m -> (forall a, steps R (k a)) -> steps R (bind m k).
Proof.
  intros Hm Hk self. unfold bind.
  specialize (Hm self). destruct (m self) as [[a | e] s1]; simpl in *.
  - eapply R_trans; [exact Hm | apply Hk].
  - exact Hm.
Qed.

(** The continuation of a pure step only has to be followed from the value
    the step really gives. *)
Lemma steps_bind_lift {A B} (r : Result A) (k : A -> M B) :
  (forall a, r = Ok a -> steps R (k a)) -> steps R (bind (lift r) k).
Proof.
  intros Hk self. unfold bind, lift. destruct r as [a | e]; simpl.
  - now apply Hk.
  - apply R_refl.
Qed.

Lemma steps_try_except (body : M unit) (handler : exn -> M unit) :
  steps R body -> (forall e, steps R (handler e)) -> steps R (try_except body handler).
Proof.
  intros Hb Hh self. unfold try_except.
  specialize (Hb self). destruct (body self) as [[[] | e] s1]; simpl in *.
  - exact Hb.
  - eapply R_trans; [exact Hb | apply Hh].
Qed.

Lemma steps_when (b : bool) (m : M unit) :
  (b = true -> steps R m) -> steps R (when b m).
Proof.
  intros Hm. destruct b; simpl; [now apply Hm | apply steps_ret].
Qed.

Lemma steps_for_each {A} (xs : list A) (body : A -> M unit) :
  (forall x, steps R (body x)) -> steps R (for_each xs body).
Proof.
  intros Hb. induction xs as [| x xs IH]; simpl.
  - apply steps_ret.
  - apply steps_bind; [apply Hb | intros _; exact IH].
Qed.

Lemma steps_for_items {V} (get : Exchange -> dict V) (size : nat)
    (items : dict V) (body : string -> V -> M unit) :
  (forall k v, steps R (body k v)) -> steps R (for_items get size items body).
Proof.
  intros Hb. induction items as [| [k v] items IH]; simpl.
  - apply steps_bind; [apply steps_gets |].
    intros n. destruct (negb (n =? size)%nat); [apply steps_raise | apply steps_ret].
  - apply steps_bind; [apply steps_gets |].
    intros n. destruct (negb (n =? size)%nat); [apply steps_raise |].
    apply steps_bind; [apply Hb | intros _; exact IH].
Qed.

Lemma steps_modify (f : Exchange -> Exchange) :
  (forall s, R s (f s)) -> steps R (modify f).
Proof. intros Hf self. apply Hf. Qed.

Lemma steps_ask {A} (ev : event) (answer : list event -> Result A) :
  (forall s, R s (record_event ev s)) -> steps R (ask ev answer).
Proof. intros Hev self. apply Hev. Qed.

End Steps.

Lemma for_each_returns_on {A} (Q : A -> Prop) (xs : list A) (body : A -> M unit) :
  (forall x s, Q x -> fst (body x s) = Ok tt) ->
  Forall Q xs -> forall s, fst (for_each xs body s) = Ok tt.
Proof.
  intros Hb HQ. induction HQ as [| x xs Hx _ IH]; intros s; simpl; [reflexivity |].
  unfold bind. specialize (Hb x s Hx).
  destruct (body x s) as [[[] | e] s']; simpl in Hb; [apply IH | discriminate].
Qed.

Lemma for_each_returns {A} (xs : list A) (body : A -> M unit) :
  (forall x s, fst (body x s) = Ok tt) -> forall s, fst (for_each xs body s) = Ok tt.
Proof.
  intros Hb. apply for_each_returns_on with (Q := fun _ => True); [auto |].
  now apply Forall_forall.
Qed.

Lemma _executeOrder_known world order self :
  dict_contains (asset order) (_asset_balances self) = true ->
  _executeOrder world order self = submit_order world order self.
Proof.
  intros H. unfold _executeOrder. unfold bind at 1 2 3. unfold gets, when, ret.
  repeat (progress (rewrite ?H; cbv beta iota delta [negb])). reflexivity.
Qed.

Lemma _executeOrder_unknown world order self :
  dict_contains (asset order) (_asset_balances self) = false ->
  _executeOrder world order self =
  match _refreshBalances world self with
  | (Ok _, s1) =>
    if dict_contains (asset order) (_asset_balances s1)
    then submit_order world order s1 else (Ok tt, s1)
  | (Raise e, s1) => (Raise e, s1)
  end.
Proof.
  intros H. unfold _executeOrder. unfold bind at 1 2 3. unfold gets, when, ret.
  repeat (progress (rewrite ?H; cbv beta iota delta [negb])).
  destruct (_refreshBalances world self) as [[[] | e] s1]; [| reflexivity].
  destruct (dict_contains (asset order) (_asset_balances s1)); reflexivity.
Qed.

Section MethodSteps.

(** When [R] respects the calls that satisfy [P] and the assignments to the
    two timestamp dictionaries, it is respected by the methods, provided
    their order calls satisfy [P]. *)
Variable world : World.
Variable R : Exchange -> Exchange -> Prop.
Variable P : event -> Prop.
Hypothesis R_refl : forall s, R s s.
Hypothesis R_trans : forall s1 s2 s3, R s1 s2 -> R s2 s3 -> R s1 s3.
Hypothesis R_event : forall ev s, P ev -> R s (record_event ev s).
Hypothesis R_buy_time : forall d s, R s (set_buy_time d s).
Hypothesis R_sell_time : forall d s, R s (set_sell_time d s).
Hypothesis R_balances : forall d s, R s (set_asset_balances d s).
Hypothesis P_now : P datetime_now.
Hypothesis P_info : forall r, P (logger_info r).
Hypothesis P_fetch_balance : P fetch_balance.

Lemma steps_now : steps R (now world).
Proof. apply steps_ask. intros s. apply R_event, P_now. Qed.

Lemma steps_info r : steps R (info r).
Proof. apply steps_modify. intros s. apply R_event, P_info. Qed.

Lemma steps_asset_balance a : steps R (asset_balance a).
Proof.
  intros self. unfold asset_balance.
  destruct (dict_get a (_asset_balances self)); apply R_refl.
Qed.

Lemma steps_del_buy_time a : steps R (del_buy_time a).
Proof.
  intros self. unfold del_buy_time.
  destruct (dict_contains a (_buy_time self)); simpl; [apply R_buy_time | apply R_refl].
Qed.

Lemma steps_del_sell_time a : steps R (del_sell_time a).
Proof.
  intros self. unfold del_sell_time.
  destruct (dict_contains a (_sell_time self)); simpl; [apply R_sell_time | apply R_refl].
Qed.

Lemma steps_submit_order order :
  (forall symbol, P (create_market_buy_order symbol (amount order))) ->
  (forall symbol, P (create_market_sell_order symbol (amount order))) ->
  steps R (submit_order world order).
Proof.
  intros Hbuy Hsell. unfold submit_order.
  destruct (position order =? "buy")%string.
  - apply steps_bind; try assumption.
    { apply steps_ask. intros s. apply R_event, Hbuy. }
    intros _. apply steps_bind; try assumption; [apply steps_now |].
    intros bought. apply steps_bind; try assumption.
    { apply steps_modify. intros s. apply R_buy_time. }
    intros _. apply steps_bind; try assumption; [apply steps_now |].
    intros t. apply steps_bind_lift; try assumption.
    intros d _. apply steps_bind_lift; try assumption.
    intros expires _. apply steps_bind; try assumption.
    { apply steps_modify. intros s. apply R_sell_time. }
    intros _. apply steps_info.
  - destruct (position order =? "sell")%string; [| now apply steps_ret].
    apply steps_bind; try assumption.
    { apply steps_ask. intros s. apply R_event, Hsell. }
    intros _. apply steps_bind; try assumption; [apply steps_del_buy_time |].
    intros _. apply steps_bind; try assumption; [apply steps_del_sell_time |].
    intros _. apply steps_info.
Qed.

Lemma steps_refreshBalances : steps R (_refreshBalances world).
Proof.
  unfold _refreshBalances.
  apply steps_bind; try assumption.
  { apply steps_modify. intros s. apply R_balances. }
  intros _. apply steps_bind; try assumption.
  { apply steps_ask. intros s. apply R_event, P_fetch_balance. }
  intros infos. apply steps_for_each; try assumption.
  intros [a [free |]]; simpl.
  - apply steps_modify. intros s. apply R_balances.
  - now apply steps_raise.
Qed.

Lemma steps_executeOrder order :
  (forall symbol, P (create_market_buy_order symbol (amount order))) ->
  (forall symbol, P (create_market_sell_order symbol (amount order))) ->
  steps R (_executeOrder world order).
Proof.
  intros Hbuy Hsell. unfold _executeOrder.
  apply steps_bind; try assumption.
  intros known. apply steps_bind; try assumption.
  { apply steps_when; try assumption. intros _. apply steps_refreshBalances. }
  intros _. apply steps_bind; try assumption.
  intros known'. destruct (negb known'); [now apply steps_ret |].
  now apply steps_submit_order.
Qed.

End MethodSteps.

Section SizingSteps.

(** When [R] is respected by [_executeOrder] on the orders for an amount
    above zero (for a buy, with a duration that satisfies [Dur]), it is
    respected by the methods that size the orders and by the two entry
    points. *)
Variable world : World.
Variable R : Exchange -> Exchange -> Prop.
Variable P : event -> Prop.
Variable Dur : option Z -> Prop.
Hypothesis R_refl : forall s, R s s.
Hypothesis R_trans : forall s1 s2 s3, R s1 s2 -> R s2 s3 -> R s1 s3.
Hypothesis R_event : forall ev s, P ev -> R s (record_event ev s).
Hypothesis P_now : P datetime_now.
Hypothesis P_info : forall r, P (logger_info r).
Hypothesis P_fetch_ticker : forall symbol, P (fetch_ticker symbol).
Hypothesis exec_sell :
  forall a amount, (0 <? amount)%float = true ->
  steps R (_executeOrder world (Order "sell" a amount None)).
Hypothesis exec_buy :
  forall a amount d, (0 <? amount)%float = true -> Dur d ->
  steps R (_executeOrder world (Order "buy" a amount d)).

Lemma steps_sellAsset a percent : steps R (_sellAsset world a percent).
Proof.
  unfold _sellAsset. apply steps_try_except; try assumption.
  - apply steps_bind; try assumption; [now apply steps_asset_balance |].
    intros balance. apply steps_bind; try assumption.
    intros fee. apply steps_when; try assumption.
    intros Hpos. apply steps_bind_lift; try assumption.
    intros order Horder. injection Horder as <-. now apply exec_sell.
  - intros e. now apply steps_info with (P := P).
Qed.

Lemma steps_buyAsset a percent d : Dur d -> steps R (_buyAsset world a percent d).
Proof.
  intros Hd. unfold _buyAsset.
  apply steps_bind; try assumption; [now apply steps_asset_balance |].
  intros usdt. apply steps_bind; try assumption.
  intros fee. apply steps_bind; try assumption.
  { apply steps_when; try assumption. intros _. now apply steps_info with (P := P). }
  intros _. apply steps_try_except; try assumption.
  - apply steps_bind; try assumption.
    { unfold _convertUsdtToAsset. apply steps_bind; try assumption.
      - apply steps_ask. intros s. apply R_event, P_fetch_ticker.
      - intros price. now apply steps_lift. }
    intros amount_asset. apply steps_when; try assumption.
    intros Hpos. apply steps_bind_lift; try assumption.
    intros order Horder. injection Horder as <-. now apply exec_buy.
  - intros e. now apply steps_info with (P := P).
Qed.

Lemma steps_sellAllAssets : steps R (_sellAllAssets world).
Proof.
  unfold _sellAllAssets. apply steps_bind; try assumption.
  intros items. apply steps_for_each; try assumption.
  intros item. apply steps_when; try assumption.
  intros _. apply steps_sellAsset.
Qed.

(** The sweep never gets as far as [_executeOrder]: building the order
    raises. *)
Lemma steps_sellOverdueAssets : steps R (_sellOverdueAssets world).
Proof.
  unfold _sellOverdueAssets. apply steps_bind; try assumption.
  intros items. apply steps_for_items; try assumption.
  intros a time. apply steps_bind; try assumption;
    [now apply steps_now with (P := P) |].
  intros t. apply steps_when; try assumption.
  intros _. apply steps_bind; try assumption; [now apply steps_asset_balance |].
  intros balance. apply steps_bind_lift; try assumption.
  intros order Horder. discriminate Horder.
Qed.

Lemma steps_executeTradeAdvice advice :
  (advice_position advice = "buy" -> Dur (advice_duration advice)) ->
  steps R (executeTradeAdvice world advice).
Proof.
  intros Hd. unfold executeTradeAdvice.
  destruct (advice_position advice =? "buy")%string eqn:Ebuy.
  { apply steps_buyAsset, Hd. now apply String.eqb_eq. }
  destruct (advice_position advice =? "sell")%string; [| now apply steps_ret].
  apply steps_bind; try assumption.
  { apply steps_when; try assumption. intros _. apply steps_sellAllAssets. }
  intros _. apply steps_bind; try assumption.
  intros known. apply steps_when; try assumption.
  intros _. apply steps_sellAsset.
Qed.

End SizingSteps.

(** ** Relations the methods respect *)

Lemma extends_with_refl P s : extends_with P s s.
Proof. exists []. split; [now rewrite app_nil_r | constructor]. Qed.

Lemma extends_with_trans P s1 s2 s3 :
  extends_with P s1 s2 -> extends_with P s2 s3 -> extends_with P s1 s3.
Proof.
  intros [evs1 [E1 F1]] [evs2 [E2 F2]]. exists (evs1 ++ evs2)%list. split.
  - now rewrite E2, E1, app_assoc.
  - apply Forall_app. now split.
Qed.

Lemma extends_with_event (P : event -> Prop) ev s :
  P ev -> extends_with P s (record_event ev s).
Proof. intros H. exists [ev]. split; [reflexivity | now constructor]. Qed.

Lemma extends_with_set_buy_time P d s : extends_with P s (set_buy_time d s).
Proof. exists []. split; [simpl; now rewrite app_nil_r | constructor]. Qed.

Lemma extends_with_set_sell_time P d s : extends_with P s (set_sell_time d s).
Proof. exists []. split; [simpl; now rewrite app_nil_r | constructor]. Qed.

Lemma extends_with_set_asset_balances P d s : extends_with P s (set_asset_balances d s).
Proof. exists []. split; [simpl; now rewrite app_nil_r | constructor]. Qed.

Lemma only_snapshot_differs_refl s : only_snapshot_differs s s.
Proof. repeat split. Qed.

Lemma only_snapshot_differs_trans s1 s2 s3 :
  only_snapshot_differs s1 s2 -> only_snapshot_differs s2 s3 ->
  only_snapshot_differs s1 s3.
Proof.
  intros (A1 & B1 & C1 & D1) (A2 & B2 & C2 & D2).
  repeat split; congruence.
Qed.

Lemma same_snapshot_refl s : same_snapshot s s.
Proof. split; reflexivity. Qed.

Lemma same_snapshot_trans s1 s2 s3 :
  same_snapshot s1 s2 -> same_snapshot s2 s3 -> same_snapshot s1 s3.
Proof. intros [A1 B1] [A2 B2]. split; congruence. Qed.

Lemma store_balances_frame infos : steps only_snapshot_differs (store_balances infos).
Proof.
  apply steps_for_each.
  - apply only_snapshot_differs_refl.
  - apply only_snapshot_differs_trans.
  - intros [a [free |]] s; simpl; repeat split.
Qed.

Lemma _refreshBalances_unfold world self :
  _refreshBalances world self =
  match balances world (trace self) with
  | Ok infos =>
    store_balances infos (record_event fetch_balance (set_asset_balances [] self))
  | Raise e => (Raise e, record_event fetch_balance (set_asset_balances [] self))
  end.
Proof.
  unfold _refreshBalances, bind at 1 2, modify, ask. cbv beta iota.
  change (trace (set_asset_balances [] self)) with (trace self).
  destruct (balances world (trace self)); reflexivity.
Qed.

(** What a refresh does besides replacing the snapshot: one call. *)
Lemma _refreshBalances_effect world self :
  let s1 := snd (_refreshBalances world self) in
  trace s1 = (trace self ++ [fetch_balance])%list /\
  _buy_time s1 = _buy_time self /\ _sell_time s1 = _sell_time self /\
  max_fee s1 = max_fee self.
Proof.
  cbv zeta. rewrite _refreshBalances_unfold.
  destruct (balances world (trace self)) as [infos | e]; [| simpl; repeat split].
  destruct (store_balances_frame infos
              (record_event fetch_balance (set_asset_balances [] self)))
    as (A & B & C & D).
  rewrite A, B, C, D. repeat split.
Qed.

(** [submit_order] leaves the snapshot alone and does not fetch balances. *)
Lemma submit_order_same_snapshot world order :
  steps same_snapshot (submit_order world order).
Proof.
  apply (steps_submit_order world same_snapshot (fun _ => True)
           same_snapshot_refl same_snapshot_trans); try easy.
Qed.

Lemma submit_order_no_fetch world order :
  steps (extends_with not_a_fetch) (submit_order world order).
Proof.
  apply (steps_submit_order world (extends_with not_a_fetch) not_a_fetch
           (extends_with_refl _) (extends_with_trans _) (extends_with_event _)
           (extends_with_set_buy_time _) (extends_with_set_sell_time _));
    intros; unfold not_a_fetch; discriminate.
Qed.

(** ** Order execution with an asset missing from the snapshot *)

(** A refresh returns normally when the exchange answers and every amount
    reads as a float. *)
Lemma _refreshBalances_returns world self infos :
  balances world (trace self) = Ok infos ->
  Forall (fun info => snd info <> None) infos ->
  fst (_refreshBalances world self) = Ok tt.
Proof.
  intros Hfetch Hfloats. rewrite _refreshBalances_unfold, Hfetch.
  unfold store_balances.
  apply for_each_returns_on with (Q := fun info => snd info <> None);
    [| exact Hfloats].
  intros [a [free |]] s H; [reflexivity | now contradiction H].
Qed.

(** C5. [_executeOrder] on an order whose asset is not a key of the balance
    snapshot fetches the balances exactly once, as its first call.  If the
    asset is still not a key afterwards, the run is that refresh and nothing
    else: no further call (no order, no log record) and both timestamp
    dictionaries as they were; it returns normally when the fetch was
    answered with amounts that all read as floats. *)
Theorem executeOrder_absent_asset_refreshes_once world order self :
  dict_contains (asset order) (_asset_balances self) = false ->
  let run := _executeOrder world order self in
  exists evs,
    trace (snd run) = (trace self ++ fetch_balance :: evs)%list /\
    ~ In fetch_balance evs /\
    (dict_contains (asset order) (_asset_balances (snd run)) = false ->
     run = _refreshBalances world self /\ evs = [] /\
     _buy_time (snd run) = _buy_time self /\
     _sell_time (snd run) = _sell_time self /\
     forall infos,
       balances world (trace self) = Ok infos ->
       Forall (fun info => snd info <> None) infos ->
       fst run = Ok tt).
Proof.
  intros Habsent. cbv zeta. rewrite (_executeOrder_unknown _ _ _ Habsent).
  destruct (_refreshBalances_effect world self) as (T & B & S & _).
  pose proof (_refreshBalances_returns world self) as Hret.
  destruct (_refreshBalances world self) as [[[] | e] s1] eqn:Erefresh;
    simpl in T, B, S, Hret.
  - destruct (dict_contains (asset order) (_asset_balances s1)) eqn:Eknown.
    + destruct (submit_order_no_fetch world order s1) as [evs [Etr Hevs]].
      destruct (submit_order_same_snapshot world order s1) as [Ebal _].
      exists evs. split; [| split].
      * rewrite Etr, T, <- app_assoc. reflexivity.
      * intros Hin. rewrite Forall_forall in Hevs. now apply (Hevs _ Hin).
      * rewrite Ebal, Eknown. discriminate.
    + exists []. simpl. repeat split; auto.
  - exists []. simpl. repeat split; eauto.
Qed.

Lemma executeOrder_absent_asset_witness :
  exists evs,
    trace (snd (_executeOrder calm sell_one_DOGE only_BTC))
    = (trace only_BTC ++ fetch_balance :: evs)%list /\
    ~ In fetch_balance evs /\
    (dict_contains "DOGE" (_asset_balances (snd (_executeOrder calm sell_one_DOGE only_BTC)))
     = false ->
     _executeOrder calm sell_one_DOGE only_BTC = _refreshBalances calm only_BTC /\
     evs = [] /\
     _buy_time (snd (_executeOrder calm sell_one_DOGE only_BTC)) = _buy_time only_BTC /\
     _sell_time (snd (_executeOrder calm sell_one_DOGE only_BTC)) = _sell_time only_BTC /\
     forall infos,
       balances calm (trace only_BTC) = Ok infos ->
       Forall (fun info => snd info <> None) infos ->
       fst (_executeOrder calm sell_one_DOGE only_BTC) = Ok tt).
Proof.
  apply (executeOrder_absent_asset_refreshes_once calm sell_one_DOGE only_BTC).
  reflexivity.
Defined.

Example executeOrder_absent_asset_run :
  _executeOrder calm sell_one_DOGE only_BTC
  = (Ok tt, mkExchange 0.001 [("USDT", 1000%float); ("BTC", 0.5%float)] [] [] [fetch_balance]).
Proof. reflexivity. Qed.

(** ** The advice parser *)

Example parse_sell_BTC :
  _parseGptResponse "sell BTC" = Ok (Some (mkTradeAdvice "sell" "BTC" None)).
Proof. reflexivity. Qed.

Example parse_buy_all_10 :
  _parseGptResponse "buy all 10" = Ok (Some (mkTradeAdvice "buy" "AVAX" (Some 10))).
Proof. reflexivity. Qed.

Example parse_hold_BTC : _parseGptResponse "hold BTC" = Ok None.
Proof. reflexivity. Qed.

Example parse_buy_five_tokens :
  _parseGptResponse "buy ETH 10 hours max"
  = Ok (Some (mkTradeAdvice "buy" "ETH" (Some 10))).
Proof. reflexivity. Qed.

(** C2. On the two tokens [buy ETH] the parser raises [IndexError]: the
    test [len(parts) == 2] reads the tokens left after [position] and
    [asset] were taken off, so it lets the two-token response through to
    [parts[0]] on an empty list, and it turns away the four-token response
    [buy ETH 10 hours], whose third token is a number. *)
Theorem parse_buy_without_duration_raises :
  split "buy ETH" = ["buy"; "ETH"] /\
  _parseGptResponse "buy ETH" = Raise IndexError /\
  split "buy ETH 10 hours" = ["buy"; "ETH"; "10"; "hours"] /\
  _parseGptResponse "buy ETH 10 hours" = Ok None.
Proof. repeat split. Qed.

(** C3, as the code has it.  The parser returns a sell advice exactly for
    the responses that split into two or more tokens the first of which is
    [sell]; the asset is the second token, the duration is [None], and the
    tokens after the second are ignored. *)
Theorem parse_sell_iff response a d :
  _parseGptResponse response = Ok (Some (mkTradeAdvice "sell" a d)) <->
  d = None /\ exists rest, split response = "sell" :: a :: rest.
Proof.
  unfold _parseGptResponse.
  destruct (split response) as [| p [| a' rest]]; simpl.
  - split; [discriminate | intros [_ [r H]]; discriminate].
  - split; [discriminate | intros [_ [r H]]; discriminate].
  - destruct (p =? "sell")%string eqn:Esell.
    + apply String.eqb_eq in Esell. subst p. split.
      * intros H. injection H as Ha Hd. subst. split; [reflexivity | now exists rest].
      * intros [Hd [r H]]. injection H as Ha Hr. now subst.
    + assert (Hp : p <> "sell") by now apply String.eqb_neq.
      split.
      * intros H. exfalso.
        destruct (p =? "buy")%string; [| discriminate].
        destruct (List.length rest =? 2)%nat; [discriminate |].
        destruct rest as [| dur rest']; [discriminate |].
        destruct (negb (isdigit dur)); [discriminate |].
        destruct (int dur); [| discriminate].
        injection H as Hpos _ _. now apply Hp.
      * intros [_ [r H]]. injection H as Hpos _ _. now apply Hp in Hpos.
Qed.

(** C3, as the spec has it, fails: the three tokens [sell BTC now] give a
    sell advice. *)
Lemma parse_sell_not_only_two_tokens :
  ~ (forall response a,
       _parseGptResponse response = Ok (Some (mkTradeAdvice "sell" a None)) <->
       split response = ["sell"; a]).
Proof.
  intros H. destruct (H "sell BTC now" "BTC") as [H1 _].
  discriminate (H1 eq_refl).
Qed.

(** ** Buy advice in the parser *)



Lemma int_Ok_decimal d n :
  int d = Ok n -> d <> "" /\ all_chars is_ascii_digit d = true /\ n = decimal_value 0 d.
Proof.
  destruct d as [| c d]; [discriminate |]. unfold int.
  destruct (all_chars is_ascii_digit (String c d)); [| discriminate].
  intros H. injection H as <-. repeat split. discriminate.
Qed.


(** ** Orders are placed for amounts above zero only *)

Lemma positive_order_other ev : is_order ev = false -> positive_order ev.
Proof.
  unfold is_order, positive_order. intros H a Ha. rewrite Ha in H. discriminate.
Qed.

Lemma positive_order_buy symbol a :
  (0 <? a)%float = true -> positive_order (create_market_buy_order symbol a).
Proof. intros H b Hb. injection Hb as <-. exact H. Qed.

Lemma positive_order_sell symbol a :
  (0 <? a)%float = true -> positive_order (create_market_sell_order symbol a).
Proof. intros H b Hb. injection Hb as <-. exact H. Qed.

Lemma executeOrder_positive world order :
  (0 <? amount order)%float = true ->
  steps (extends_with positive_order) (_executeOrder world order).
Proof.
  intros Hpos.
  apply steps_executeOrder with (P := positive_order);
    first [ apply extends_with_refl | apply extends_with_trans
          | apply extends_with_event | apply extends_with_set_buy_time
          | apply extends_with_set_sell_time | apply extends_with_set_asset_balances
          | intros; apply positive_order_buy; exact Hpos
          | intros; apply positive_order_sell; exact Hpos
          | intros; apply positive_order_other; reflexivity ].
Qed.

Ltac positive_orders lemma :=
  first [ apply lemma with (P := positive_order) (Dur := fun _ => True)
        | apply lemma with (P := positive_order) ];
  first [ apply extends_with_refl | apply extends_with_trans
        | apply extends_with_event
        | intros; apply executeOrder_positive; assumption
        | intros; apply positive_order_other; reflexivity
        | intros; exact I ].

(** C8. Whatever the state and whatever the exchange answers, the calls
    that [executeTradeAdvice] (a buy or a sell advice), [_sellAsset],
    [_buyAsset], [_sellAllAssets], [sellRequiredAssets] and the constructor
    add to the trace contain no order call whose amount is not above zero. *)
Theorem no_order_without_positive_amount world :
  (forall advice, only_positive_orders (executeTradeAdvice world advice)) /\
  (forall a percent, only_positive_orders (_sellAsset world a percent)) /\
  (forall a percent d, only_positive_orders (_buyAsset world a percent d)) /\
  only_positive_orders (_sellAllAssets world) /\
  only_positive_orders (sellRequiredAssets world) /\
  (forall fee, Forall positive_order (trace (snd (Exchange__init__ world fee)))).
Proof.
  unfold only_positive_orders.
  assert (Hall : steps (extends_with positive_order) (_sellAllAssets world))
    by positive_orders steps_sellAllAssets.
  repeat split.
  - intros advice. positive_orders steps_executeTradeAdvice.
  - intros a percent. positive_orders steps_sellAsset.
  - intros a percent d. positive_orders steps_buyAsset.
  - exact Hall.
  - unfold sellRequiredAssets. positive_orders steps_sellOverdueAssets.
  - intros fee. unfold Exchange__init__.
    assert (Hinit : steps (extends_with positive_order)
                      (_refreshBalances world ;; _sellAllAssets world)).
    { apply steps_bind; [apply extends_with_trans | | intros _; exact Hall].
      apply steps_refreshBalances with (P := positive_order);
        first [ apply extends_with_refl | apply extends_with_trans
              | apply extends_with_event | apply extends_with_set_asset_balances
              | apply positive_order_other; reflexivity ]. }
    destruct (Hinit (mkExchange fee [] [] [] [])) as [evs [E F]].
    rewrite E. exact F.
Qed.

(** ** A sell advice for an asset the snapshot does not have *)

(** C10. A sell advice whose asset is not [all] and not a key of the
    balance snapshot does nothing: [executeTradeAdvice] returns normally
    with the object unchanged, so the trace gains no call (no order, no
    balance fetch, no log record) and the snapshot and both timestamp
    dictionaries are as before. *)
Theorem sell_advice_for_unknown_asset_does_nothing world advice self :
  advice_position advice = "sell" ->
  advice_asset advice <> "all" ->
  dict_contains (advice_asset advice) (_asset_balances self) = false ->
  executeTradeAdvice world advice self = (Ok tt, self).
Proof.
  intros Hsell Hall Hunknown. unfold executeTradeAdvice.
  rewrite Hsell. simpl.
  apply String.eqb_neq in Hall. rewrite Hall.
  unfold bind, when, ret, gets. rewrite Hunknown. reflexivity.
Qed.

Lemma sell_advice_for_unknown_asset_witness :
  executeTradeAdvice calm (mkTradeAdvice "sell" "DOGE" None) only_BTC = (Ok tt, only_BTC).
Proof.
  apply (sell_advice_for_unknown_asset_does_nothing calm
           (mkTradeAdvice "sell" "DOGE" None) only_BTC).
  - reflexivity.
  - discriminate.
  - reflexivity.
Defined.

(** ** Selling *)

Lemma dict_get_contains {V} k (d : dict V) v :
  dict_get k d = Some v -> dict_contains k d = true.
Proof.
  induction d as [| [k' v'] d IH]; simpl; [discriminate |].
  destruct (k' =? k)%string; [reflexivity | exact IH].
Qed.

(** [_sellAsset], case by case: the refresh of [_executeOrder] is out of
    reach, since an asset without a balance raises [KeyError] before. *)
Lemma _sellAsset_unfold world a percent self :
  _sellAsset world a percent self =
  match dict_get a (_asset_balances self) with
  | None => (Ok tt, record_event (logger_info (failed_to_sell a (KeyError a))) self)
  | Some balance =>
    let amount_asset := (balance * percent / 100 * (1 - max_fee self))%float in
    if (0 <? amount_asset)%float then
      match submit_order world (Order "sell" a amount_asset None) self with
      | (Ok _, s') => (Ok tt, s')
      | (Raise e, s') => (Ok tt, record_event (logger_info (failed_to_sell a e)) s')
      end
    else (Ok tt, self)
  end.
Proof.
  unfold _sellAsset, try_except, bind at 1 2, asset_balance, gets.
  destruct (dict_get a (_asset_balances self)) as [balance |] eqn:Ebal; [| reflexivity].
  cbv beta iota zeta.
  destruct (0 <? balance * percent / 100 * (1 - max_fee self))%float; [| reflexivity].
  unfold when, bind, lift, TradeOrder_call.
  rewrite _executeOrder_known by (simpl; eapply dict_get_contains; eassumption).
  destruct (submit_order world _ self) as [[[] | e] s']; reflexivity.
Qed.

Lemma _sellAsset_returns world a percent self :
  fst (_sellAsset world a percent self) = Ok tt.
Proof.
  rewrite _sellAsset_unfold.
  destruct (dict_get a (_asset_balances self)); [| reflexivity].
  cbv zeta. destruct (0 <? _)%float; [| reflexivity].
  destruct (submit_order world _ self) as [[[] | e] s']; reflexivity.
Qed.

Lemma _sellAsset_same_snapshot world a percent :
  steps same_snapshot (_sellAsset world a percent).
Proof.
  intros self. rewrite _sellAsset_unfold.
  destruct (dict_get a (_asset_balances self)); [| split; reflexivity].
  cbv zeta. destruct (0 <? _)%float; [| split; reflexivity].
  match goal with |- context [submit_order world ?o self] =>
    pose proof (submit_order_same_snapshot world o self) as H;
    destruct (submit_order world o self) as [[[] | e] s']
  end; exact H.
Qed.

Lemma _sellAllAssets_returns world self : fst (_sellAllAssets world self) = Ok tt.
Proof.
  unfold _sellAllAssets, bind, gets. apply for_each_returns.
  intros item s. destruct (_ && _); [apply _sellAsset_returns | reflexivity].
Qed.

Lemma _sellAllAssets_same_snapshot world : steps same_snapshot (_sellAllAssets world).
Proof.
  unfold _sellAllAssets. apply steps_bind; [apply same_snapshot_trans | |].
  - intros s. apply same_snapshot_refl.
  - intros items. apply steps_for_each;
      [apply same_snapshot_refl | apply same_snapshot_trans |].
    intros item. apply steps_when; [apply same_snapshot_refl |].
    intros _. apply _sellAsset_same_snapshot.
Qed.

(** ** Advice execution *)

Lemma executeTradeAdvice_buy world advice self :
  advice_position advice = "buy" ->
  executeTradeAdvice world advice self
  = _buyAsset world (advice_asset advice) 20 (advice_duration advice) self.
Proof. intros Hpos. unfold executeTradeAdvice. now rewrite Hpos. Qed.

Lemma executeTradeAdvice_sell world advice self :
  advice_position advice = "sell" ->
  executeTradeAdvice world advice self
  = if dict_contains (advice_asset advice) (_asset_balances self)
    then _sellAsset world (advice_asset advice) 100
           (if (advice_asset advice =? "all")%string
            then snd (_sellAllAssets world self) else self)
    else (Ok tt, if (advice_asset advice =? "all")%string
                 then snd (_sellAllAssets world self) else self).
Proof.
  intros Hpos. unfold executeTradeAdvice. rewrite Hpos. simpl.
  unfold bind at 1 2. unfold gets.
  destruct (advice_asset advice =? "all")%string; simpl.
  - pose proof (_sellAllAssets_returns world self) as Hret.
    destruct (_sellAllAssets_same_snapshot world self) as [Hbal _].
    destruct (_sellAllAssets world self) as [[[] | e] s1]; simpl in *;
      [| discriminate].
    rewrite Hbal.
    destruct (dict_contains (advice_asset advice) (_asset_balances self)); reflexivity.
  - destruct (dict_contains (advice_asset advice) (_asset_balances self)); reflexivity.
Qed.

(** C6. A buy advice is executed as [_buyAsset] with 20 percent and the
    advice's duration.  A sell advice makes two tests that do not exclude
    each other: when the asset is [all], every holding is liquidated
    ([_sellAllAssets]); and, whether or not that happened, when the asset is
    a key of the balance snapshot it is sold by [_sellAsset].  The
    liquidation neither raises nor touches the snapshot, so the second test
    has the same outcome before and after it, and an asset named [all]
    that is in the snapshot gets both. *)
Theorem executeTradeAdvice_cases world advice self :
  (advice_position advice = "buy" ->
   executeTradeAdvice world advice self
   = _buyAsset world (advice_asset advice) 20 (advice_duration advice) self) /\
  (advice_position advice = "sell" ->
   let liquidated :=
     if (advice_asset advice =? "all")%string
     then snd (_sellAllAssets world self) else self in
   executeTradeAdvice world advice self
   = if dict_contains (advice_asset advice) (_asset_balances self)
     then _sellAsset world (advice_asset advice) 100 liquidated
     else (Ok tt, liquidated)).
Proof.
  split.
  - apply executeTradeAdvice_buy.
  - intros Hpos. cbv zeta. now apply executeTradeAdvice_sell.
Qed.

(** With a holding named [all], a sell-all advice sells it twice. *)
Example sell_all_sells_asset_all_twice :
  trace (snd (executeTradeAdvice calm (mkTradeAdvice "sell" "all" None) with_asset_all))
  = [create_market_sell_order "all/USDT" 1.998;
     logger_info (failed_to_sell "all" (KeyError "all"));
     create_market_sell_order "BTC/USDT" 0.4995;
     logger_info (failed_to_sell "BTC" (KeyError "BTC"));
     create_market_sell_order "all/USDT" 1.998;
     logger_info (failed_to_sell "all" (KeyError "all"))].
Proof. reflexivity. Qed.

(** ** Selling an asset that has no position entry *)

Lemma submit_order_sell_untracked world a amount d self :
  dict_contains a (_buy_time self) = false ->
  market_sell world (trace self) (a ++ "/USDT") amount = None ->
  submit_order world (Order "sell" a amount d) self
  = (Raise (KeyError a),
     record_event (create_market_sell_order (a ++ "/USDT") amount) self).
Proof.
  intros Hbuy Hsell. unfold submit_order. simpl.
  unfold bind at 1 2, ask. rewrite Hsell. simpl.
  unfold del_buy_time. simpl. rewrite Hbuy. reflexivity.
Qed.

(** C9, as the code has it.  Take an asset that is in the balance snapshot
    with a sell amount above zero, that has no [_buy_time] entry, and whose
    sell order the exchange accepts.  [_executeOrder] places the order and
    then raises [KeyError] to its caller.  [_sellAsset] catches that
    exception and logs it, so it returns normally, and so does
    [executeTradeAdvice] on a sell advice for the asset. *)
Theorem sell_of_untracked_asset world a balance self :
  dict_get a (_asset_balances self) = Some balance ->
  dict_contains a (_buy_time self) = false ->
  (0 <? balance * 100 / 100 * (1 - max_fee self))%float = true ->
  market_sell world (trace self) (a ++ "/USDT")
    (balance * 100 / 100 * (1 - max_fee self))%float = None ->
  let amount_asset := (balance * 100 / 100 * (1 - max_fee self))%float in
  let sold := record_event (create_market_sell_order (a ++ "/USDT") amount_asset) self in
  let logged := record_event (logger_info (failed_to_sell a (KeyError a))) sold in
  _executeOrder world (Order "sell" a amount_asset None) self = (Raise (KeyError a), sold) /\
  _sellAsset world a 100 self = (Ok tt, logged) /\
  (a <> "all" ->
   forall d, executeTradeAdvice world (mkTradeAdvice "sell" a d) self = (Ok tt, logged)).
Proof.
  intros Hbal Hbuy Hpos Hsell. cbv zeta.
  assert (Hknown : dict_contains a (_asset_balances self) = true)
    by (eapply dict_get_contains; eassumption).
  assert (Hsub := submit_order_sell_untracked world a _ None self Hbuy Hsell).
  assert (Hasset : _sellAsset world a 100 self
                   = (Ok tt, record_event (logger_info (failed_to_sell a (KeyError a)))
                               (record_event (create_market_sell_order (a ++ "/USDT")
                                  (balance * 100 / 100 * (1 - max_fee self))%float) self))).
  { rewrite _sellAsset_unfold, Hbal. cbv zeta. rewrite Hpos, Hsub. reflexivity. }
  repeat split.
  - rewrite _executeOrder_known by exact Hknown. exact Hsub.
  - exact Hasset.
  - intros Hall d.
    rewrite executeTradeAdvice_sell by reflexivity. simpl.
    apply String.eqb_neq in Hall. rewrite Hall, Hknown. exact Hasset.
Qed.

Lemma sell_of_untracked_asset_witness :
  _executeOrder calm (Order "sell" "BTC" 0.4995 None) only_BTC
  = (Raise (KeyError "BTC"),
     record_event (create_market_sell_order "BTC/USDT" 0.4995) only_BTC) /\
  _sellAsset calm "BTC" 100 only_BTC
  = (Ok tt, record_event (logger_info (failed_to_sell "BTC" (KeyError "BTC")))
              (record_event (create_market_sell_order "BTC/USDT" 0.4995) only_BTC)) /\
  ("BTC" <> "all" ->
   forall d, executeTradeAdvice calm (mkTradeAdvice "sell" "BTC" d) only_BTC
   = (Ok tt, record_event (logger_info (failed_to_sell "BTC" (KeyError "BTC")))
               (record_event (create_market_sell_order "BTC/USDT" 0.4995) only_BTC))).
Proof.
  apply (sell_of_untracked_asset calm "BTC" 0.5%float only_BTC); reflexivity.
Defined.

(** C9, as the spec has it, fails: a sell advice for an asset without a
    position entry returns normally to the caller, after the order went to
    the exchange; the [KeyError] ends up in the log. *)
Lemma sell_advice_for_untracked_asset_returns :
  dict_contains "BTC" (_buy_time only_BTC) = false /\
  dict_contains "BTC" (_sell_time only_BTC) = false /\
  executeTradeAdvice calm (mkTradeAdvice "sell" "BTC" None) only_BTC
  = (Ok tt,
     mkExchange 0.001 [("BTC", 0.5%float)] [] []
       [create_market_sell_order "BTC/USDT" 0.4995;
        logger_info (failed_to_sell "BTC" (KeyError "BTC"))]).
Proof. repeat split. Qed.

(** ** The expiry sweep *)

(** C1. With a tracked BTC position whose expiry is an hour past, the sweep
    reads the clock, finds the position overdue and raises [TypeError] when
    it builds the order from three arguments.  No sell order reaches the
    exchange and the position's two timestamps stay. *)
Theorem sweep_raises_on_overdue_position :
  dict_get "BTC" (_sell_time holding_overdue_BTC) = Some (t0 - us_per_hour) /\
  (t0 - us_per_hour <? clock calm (trace holding_overdue_BTC)) = true /\
  dict_get "BTC" (_asset_balances holding_overdue_BTC) = Some 0.5%float /\
  sellRequiredAssets calm holding_overdue_BTC
  = (Raise TypeError, record_event datetime_now holding_overdue_BTC).
Proof. repeat split. Qed.

(** In every state and whatever the exchange answers, the sweep places no
    order and removes no timestamp. *)
Lemma sweep_only_reads_clock world :
  steps only_reads_clock (sellRequiredAssets world).
Proof.
  unfold sellRequiredAssets.
  apply steps_sellOverdueAssets with (P := fun ev => ev = datetime_now).
  - intros s. split; [apply extends_with_refl | repeat split].
  - intros s1 s2 s3 (E1 & A1 & B1 & C1 & D1) (E2 & A2 & B2 & C2 & D2).
    split; [eapply extends_with_trans; eassumption | repeat split; congruence].
  - intros ev s Hev. split; [now apply extends_with_event | repeat split].
  - reflexivity.
Qed.

(** When the first tracked position is overdue at the first clock read, the
    sweep ends there with an exception: [KeyError] if the asset has no
    balance entry, [TypeError] from the three-argument order otherwise. *)
Lemma sweep_raises_at_overdue_position world self a time rest :
  _sell_time self = (a, time) :: rest ->
  (time <? clock world (trace self)) = true ->
  sellRequiredAssets world self
  = (Raise (match dict_get a (_asset_balances self) with
            | Some _ => TypeError
            | None => KeyError a
            end),
     record_event datetime_now self).
Proof.
  intros Htracked Hdue.
  unfold sellRequiredAssets, _sellOverdueAssets, bind at 1, gets.
  rewrite Htracked. cbn [for_items List.length].
  unfold bind at 1, gets. rewrite Htracked. cbn [List.length].
  rewrite Nat.eqb_refl. cbn [negb].
  unfold bind at 1 2, now, ask. cbv beta iota. rewrite Hdue.
  unfold when, bind at 1 2, asset_balance, lift, TradeOrder_call. cbv beta iota.
  change (_asset_balances (record_event datetime_now self)) with (_asset_balances self).
  destruct (dict_get a (_asset_balances self)); reflexivity.
Qed.

Lemma sweep_raises_at_overdue_position_witness :
  sellRequiredAssets calm holding_overdue_BTC
  = (Raise (match dict_get "BTC" (_asset_balances holding_overdue_BTC) with
            | Some _ => TypeError
            | None => KeyError "BTC"
            end),
     record_event datetime_now holding_overdue_BTC).
Proof.
  apply (sweep_raises_at_overdue_position calm holding_overdue_BTC "BTC"
           (t0 - us_per_hour) []); reflexivity.
Defined.

(** ** Buying *)

(** C4. With no [USDT] key in the snapshot, [_buyAsset] raises [KeyError]
    to its caller, and so does [executeTradeAdvice] on a buy advice: the
    quote amount is computed before the [try].  [_sellAsset] computes its
    amount inside the [try] and logs the same failure.  Such a snapshot
    comes about when a refresh fails: a buy advice for an asset that is not
    in the snapshot makes [_executeOrder] refresh, the failed fetch is
    caught by [_buyAsset] and leaves the snapshot empty, and the next buy
    advice raises. *)
Theorem buyAsset_without_USDT_raises :
  dict_contains "USDT" (_asset_balances only_BTC) = false /\
  _buyAsset calm "BTC" 20 (Some 5) only_BTC = (Raise (KeyError "USDT"), only_BTC) /\
  executeTradeAdvice calm (mkTradeAdvice "buy" "BTC" (Some 5)) only_BTC
  = (Raise (KeyError "USDT"), only_BTC) /\
  _sellAsset calm "USDT" 100 only_BTC
  = (Ok tt, record_event (logger_info (failed_to_sell "USDT" (KeyError "USDT"))) only_BTC) /\
  let started := snd (Exchange__init__ offline_after_start 0.001) in
  let first_buy :=
    executeTradeAdvice offline_after_start (mkTradeAdvice "buy" "DOGE" (Some 5)) started in
  let second_buy :=
    executeTradeAdvice offline_after_start (mkTradeAdvice "buy" "BTC" (Some 5))
      (snd first_buy) in
  _asset_balances started = [("USDT", 1000%float); ("BTC", 0.5%float)] /\
  fst first_buy = Ok tt /\
  _asset_balances (snd first_buy) = [] /\
  second_buy = (Raise (KeyError "USDT"), snd first_buy).
Proof. repeat split. Qed.

(** A buy advice for five hours against [calm]: 20 percent of 1000 USDT less
    the fee, 199.8 USDT, buys 0.007992 BTC at 25000, and the position
    expires five hours after the second clock read. *)
Example buy_BTC_for_five_hours_run :
  executeTradeAdvice calm (mkTradeAdvice "buy" "BTC" (Some 5))
    (mkExchange 0.001 [("USDT", 1000%float); ("BTC", 0%float)] [] [] [])
  = (Ok tt,
     mkExchange 0.001 [("USDT", 1000%float); ("BTC", 0%float)]
       [("BTC", t0 + 2)] [("BTC", t0 + 3 + 5 * us_per_hour)]
       [fetch_ticker "BTC/USDT";
        create_market_buy_order "BTC/USDT" 0.007992;
        datetime_now; datetime_now;
        logger_info (executed (Order "buy" "BTC" 0.007992 (Some 5)))]).
Proof. reflexivity. Qed.

(** Once the quote balance is read, nothing that [_buyAsset] does raises. *)
Lemma _buyAsset_raises_only_without_USDT world a percent d self :
  fst (_buyAsset world a percent d self)
  = match dict_get "USDT" (_asset_balances self) with
    | Some _ => Ok tt
    | None => Raise (KeyError "USDT")
    end.
Proof.
  unfold _buyAsset, bind at 1 2 3, asset_balance, gets.
  destruct (dict_get "USDT" (_asset_balances self)) as [usdt |]; [| reflexivity].
  cbv beta iota zeta.
  match goal with |- context [when ?b ?m self] =>
    assert (Hwhen : fst (when b m self) = Ok tt) by (destruct b; reflexivity);
    destruct (when b m self) as [[[] | e] s1]; [clear Hwhen | discriminate]
  end.
  unfold try_except.
  match goal with |- context [bind ?m ?k s1] =>
    destruct (bind m k s1) as [[[] | e] s2]; reflexivity
  end.
Qed.

(** C7. A freshly constructed object has both timestamp dictionaries
    empty.  The response [buy BTC 100000000] parses to a buy advice;
    executing it places the order and records [_buy_time['BTC']], then the
    expiry [datetime.now() + timedelta(hours=100000000)] is past
    [datetime.max] and raises [OverflowError], which [_buyAsset] catches:
    the call returns normally with BTC in [_buy_time] and not in
    [_sell_time]. *)
Theorem buy_with_expiry_out_of_range_breaks_parity :
  fst (Exchange__init__ calm 0.001) = Ok tt /\
  parity constructed /\
  _parseGptResponse "buy BTC 100000000" = Ok (Some buy_BTC_for_ages) /\
  fst (executeTradeAdvice calm buy_BTC_for_ages constructed) = Ok tt /\
  dict_contains "BTC"
    (_buy_time (snd (executeTradeAdvice calm buy_BTC_for_ages constructed))) = true /\
  dict_contains "BTC"
    (_sell_time (snd (executeTradeAdvice calm buy_BTC_for_ages constructed))) = false /\
  ~ parity (snd (executeTradeAdvice calm buy_BTC_for_ages constructed)).
Proof.
  repeat split.
  intros H. specialize (H "BTC"). discriminate H.
Qed.

Example buy_with_expiry_out_of_range_trace :
  skipn 3 (trace (snd (executeTradeAdvice calm buy_BTC_for_ages constructed)))
  = [fetch_ticker "BTC/USDT";
     create_market_buy_order "BTC/USDT" 0.007992;
     datetime_now; datetime_now;
     logger_info (failed_to_buy "BTC" OverflowError)].
Proof. reflexivity. Qed.

(** ** The two timestamp dictionaries *)

Lemma dict_contains_set {V} a k (v : V) d :
  dict_contains a (dict_set k v d) = ((k =? a)%string || dict_contains a d)%bool.
Proof.
  induction d as [| [k' v'] d IH]; simpl.
  - reflexivity.
  - destruct (String.eqb_spec k' k) as [-> | Hne]; simpl.
    + now destruct (k =? a)%string.
    + rewrite IH. now destruct (k' =? a)%string, (k =? a)%string.
Qed.

Lemma dict_contains_remove {V} a k (d : dict V) :
  dict_contains a (dict_remove k d) = (negb (k =? a)%string && dict_contains a d)%bool.
Proof.
  induction d as [| [k' v'] d IH]; simpl.
  - now rewrite andb_false_r.
  - destruct (String.eqb_spec k' k) as [-> | Hne]; simpl.
    + rewrite IH. now destruct (k =? a)%string.
    + rewrite IH. destruct (String.eqb_spec k' a) as [-> | Hne']; simpl.
      * apply String.eqb_neq in Hne. rewrite String.eqb_sym in Hne. now rewrite Hne.
      * reflexivity.
Qed.

Lemma keeps_parity_refl s : keeps_parity s s.
Proof. intros H. exact H. Qed.

Lemma keeps_parity_trans s1 s2 s3 :
  keeps_parity s1 s2 -> keeps_parity s2 s3 -> keeps_parity s1 s3.
Proof. intros H12 H23 H. auto. Qed.

Lemma keeps_parity_event ev s : keeps_parity s (record_event ev s).
Proof. intros H. exact H. Qed.

Lemma keeps_parity_set_asset_balances d s : keeps_parity s (set_asset_balances d s).
Proof. intros H. exact H. Qed.

Lemma submit_order_sell_keeps_parity world order :
  (position order =? "buy")%string = false ->
  steps keeps_parity (submit_order world order).
Proof.
  intros Hbuy self Hpar. unfold submit_order. rewrite Hbuy.
  destruct (position order =? "sell")%string; [| exact Hpar].
  unfold bind at 1, ask.
  destruct (market_sell world (trace self) _ (amount order)); [exact Hpar |].
  simpl. unfold bind at 1, del_buy_time. simpl.
  destruct (dict_contains (asset order) (_buy_time self)) eqn:Etracked; [| exact Hpar].
  unfold bind at 1, del_sell_time. simpl.
  rewrite <- (Hpar (asset order)), Etracked. simpl.
  intros a. simpl. rewrite !dict_contains_remove. now rewrite (Hpar a).
Qed.

Lemma submit_order_buy_keeps_parity world a amount d :
  expiry_representable world d ->
  steps keeps_parity (submit_order world (Order "buy" a amount d)).
Proof.
  intros (delta & Hdelta & Hadd) self Hpar. unfold submit_order. simpl.
  unfold bind at 1, ask.
  destruct (market_buy world (trace self) _ amount); [exact Hpar |].
  simpl. unfold bind at 1 2 3 4 5, now, ask, modify, lift. simpl.
  rewrite Hdelta. simpl.
  match goal with |- context [datetime_add ?t delta] =>
    destruct (Hadd (trace self ++ [create_market_buy_order (a ++ "/USDT") amount]
                      ++ [datetime_now])%list) as [expires Hexp];
    replace (datetime_add t delta) with (Ok (A := datetime) expires)
      by (rewrite <- Hexp; f_equal; f_equal; now rewrite <- app_assoc)
  end.
  simpl. intros x. simpl. rewrite !dict_contains_set. now rewrite (Hpar x).
Qed.

Lemma executeOrder_keeps_parity world order :
  steps keeps_parity (submit_order world order) ->
  steps keeps_parity (_executeOrder world order).
Proof.
  intros Hsub self Hpar.
  destruct (dict_contains (asset order) (_asset_balances self)) eqn:Eknown.
  - rewrite _executeOrder_known by exact Eknown. now apply Hsub.
  - rewrite _executeOrder_unknown by exact Eknown.
    destruct (_refreshBalances_effect world self) as (_ & B & S & _).
    destruct (_refreshBalances world self) as [[[] | e] s1]; simpl in B, S.
    + assert (Hpar1 : parity s1) by (intros x; now rewrite B, S).
      destruct (dict_contains (asset order) (_asset_balances s1));
        [now apply Hsub | exact Hpar1].
    + intros x. simpl. now rewrite B, S.
Qed.

Ltac parity_steps lemma world :=
  first [ apply lemma with (P := fun _ => True) (Dur := expiry_representable world)
        | apply lemma with (P := fun _ => True) ];
  first [ apply keeps_parity_refl | apply keeps_parity_trans
        | intros; apply keeps_parity_event
        | intros; apply keeps_parity_set_asset_balances
        | intros; apply executeOrder_keeps_parity;
          first [ now apply submit_order_sell_keeps_parity
                | now apply submit_order_buy_keeps_parity ]
        | intros; exact I
        | assumption ].

(** The parity of the two timestamp dictionaries holds after construction,
    and it is kept by the sweep, by a sell advice, and by a buy advice whose
    expiry can be computed. *)
Theorem parity_kept world :
  (forall fee, parity (snd (Exchange__init__ world fee))) /\
  (forall self, parity self -> parity (snd (sellRequiredAssets world self))) /\
  (forall advice self,
     (advice_position advice = "buy" ->
      expiry_representable world (advice_duration advice)) ->
     parity self -> parity (snd (executeTradeAdvice world advice self))).
Proof.
  repeat split.
  - intros fee. unfold Exchange__init__.
    assert (Hinit : steps keeps_parity (_refreshBalances world ;; _sellAllAssets world)).
    { apply steps_bind; [apply keeps_parity_trans | | intros _].
      - parity_steps steps_refreshBalances world.
      - parity_steps steps_sellAllAssets world. }
    apply Hinit. intros a. reflexivity.
  - intros self. unfold sellRequiredAssets.
    assert (H : steps keeps_parity (_sellOverdueAssets world))
      by parity_steps steps_sellOverdueAssets world.
    apply H.
  - intros advice self Hdur.
    assert (H : steps keeps_parity (executeTradeAdvice world advice))
      by parity_steps steps_executeTradeAdvice world.
    apply H.
Qed.

Example five_hours_representable : expiry_representable calm_at_noon (Some 5).
Proof.
  exists (5 * us_per_hour). split; [reflexivity |].
  intros tr. exists (t0 + 5 * us_per_hour). reflexivity.
Qed.

Lemma buy_for_five_hours_keeps_parity :
  parity (snd (executeTradeAdvice calm_at_noon (mkTradeAdvice "buy" "BTC" (Some 5))
                 (snd (Exchange__init__ calm_at_noon 0.001)))).
Proof.
  destruct (parity_kept calm_at_noon) as (Hinit & _ & Hadvice).
  apply Hadvice; [intros _; apply five_hours_representable | apply Hinit].
Defined.

(** ** The snapshot after a refresh *)

Lemma store_balances_snapshot infos self :
  _asset_balances (snd (store_balances infos self)) = stored infos (_asset_balances self).
Proof.
  revert self. induction infos as [| [a [free |]] infos IH]; intros self.
  - reflexivity.
  - unfold store_balances. simpl. unfold bind, modify. simpl.
    apply (IH (set_asset_balances (dict_set a free (_asset_balances self)) self)).
  - reflexivity.
Qed.

(** A refresh replaces the snapshot: what it leaves is built from the
    fetched list alone, whatever the snapshot was before. *)
Theorem refresh_replaces_snapshot world self :
  _asset_balances (snd (_refreshBalances world self))
  = match balances world (trace self) with
    | Ok infos => stored infos []
    | Raise _ => []
    end.
Proof.
  rewrite _refreshBalances_unfold.
  destruct (balances world (trace self)) as [infos | e]; [| reflexivity].
  now rewrite store_balances_snapshot.
Qed.

(** ** Further properties of order execution *)

Lemma dict_get_set_same {V} k (v : V) d : dict_get k (dict_set k v d) = Some v.
Proof.
  induction d as [| [k' v'] d IH]; simpl.
  - now rewrite String.eqb_refl.
  - destruct (k' =? k)%string eqn:E; simpl; rewrite E; [reflexivity | exact IH].
Qed.

Lemma dict_get_set_other {V} a k (v : V) d :
  a <> k -> dict_get a (dict_set k v d) = dict_get a d.
Proof.
  intros Hne. induction d as [| [k' v'] d IH]; simpl.
  - apply String.eqb_neq in Hne. rewrite String.eqb_sym in Hne. now rewrite Hne.
  - destruct (String.eqb_spec k' k) as [-> | Hk]; simpl.
    + apply String.eqb_neq in Hne. rewrite String.eqb_sym in Hne. now rewrite Hne.
    + now rewrite IH.
Qed.

Lemma dict_get_remove_other {V} a k (d : dict V) :
  a <> k -> dict_get a (dict_remove k d) = dict_get a d.
Proof.
  intros Hne. induction d as [| [k' v'] d IH]; simpl; [reflexivity |].
  destruct (String.eqb_spec k' k) as [-> | Hk]; simpl.
  - apply String.eqb_neq in Hne. rewrite String.eqb_sym in Hne. now rewrite Hne.
  - now rewrite IH.
Qed.

Lemma dict_contains_remove_same {V} k (d : dict V) :
  dict_contains k (dict_remove k d) = false.
Proof. now rewrite dict_contains_remove, String.eqb_refl. Qed.

(** Every sell advice is executed without an exception reaching the caller,
    whatever the state and whatever the exchange answers. *)
Theorem sell_advice_returns world advice self :
  advice_position advice = "sell" ->
  fst (executeTradeAdvice world advice self) = Ok tt.
Proof.
  intros Hsell. rewrite executeTradeAdvice_sell by exact Hsell.
  destruct (dict_contains _ _); [apply _sellAsset_returns | reflexivity].
Qed.

Lemma sell_advice_returns_witness :
  fst (executeTradeAdvice rejecting (mkTradeAdvice "sell" "all" None) holding_BTC) = Ok tt.
Proof.
  apply (sell_advice_returns rejecting (mkTradeAdvice "sell" "all" None) holding_BTC).
  reflexivity.
Defined.

(** An order that the exchange turns down changes nothing: for a buy or a
    sell order whose asset is in the snapshot, [_executeOrder] raises what
    the exchange raised, and the snapshot and both timestamp dictionaries
    are as before; the only call made is the order itself. *)
Theorem rejected_order_changes_nothing world order self e :
  position order = "buy" \/ position order = "sell" ->
  dict_contains (asset order) (_asset_balances self) = true ->
  order_answer world order (trace self) = Some e ->
  _executeOrder world order self = (Raise e, record_event (order_call order) self).
Proof.
  intros Hpos Hknown Hanswer. rewrite _executeOrder_known by exact Hknown.
  unfold submit_order, order_answer, order_call in *.
  destruct Hpos as [Hpos | Hpos]; rewrite Hpos in *; simpl in *;
    unfold bind at 1, ask; rewrite Hanswer; reflexivity.
Qed.

Lemma rejected_order_changes_nothing_witness :
  _executeOrder rejecting (Order "sell" "BTC" 0.4995 None) holding_BTC
  = (Raise (ExchangeError 1),
     record_event (order_call (Order "sell" "BTC" 0.4995 None)) holding_BTC).
Proof.
  apply (rejected_order_changes_nothing rejecting (Order "sell" "BTC" 0.4995 None)
           holding_BTC (ExchangeError 1)).
  - right. reflexivity.
  - reflexivity.
  - reflexivity.
Defined.

(** An order whose position is neither [buy] nor [sell] places no order,
    writes no log record and leaves both timestamp dictionaries alone; at
    most it fetches the balances, when its asset is not in the snapshot. *)
Theorem other_position_places_no_order world order self :
  position order <> "buy" -> position order <> "sell" ->
  let self' := snd (_executeOrder world order self) in
  trace self' = (trace self ++
                 if dict_contains (asset order) (_asset_balances self)
                 then [] else [fetch_balance])%list /\
  _buy_time self' = _buy_time self /\ _sell_time self' = _sell_time self.
Proof.
  intros Hbuy Hsell. cbv zeta.
  apply String.eqb_neq in Hbuy, Hsell.
  assert (Hsub : forall s, submit_order world order s = (Ok tt, s)).
  { intros s. unfold submit_order. now rewrite Hbuy, Hsell. }
  destruct (dict_contains (asset order) (_asset_balances self)) eqn:Eknown.
  - rewrite _executeOrder_known, Hsub by exact Eknown. simpl.
    now rewrite app_nil_r.
  - rewrite _executeOrder_unknown by exact Eknown.
    destruct (_refreshBalances_effect world self) as (T & B & S & _).
    destruct (_refreshBalances world self) as [[[] | e] s1]; simpl in T, B, S.
    + rewrite Hsub.
      destruct (dict_contains (asset order) (_asset_balances s1)); simpl; auto.
    + simpl. auto.
Qed.

Lemma other_position_places_no_order_witness :
  trace (snd (_executeOrder calm (Order "hold" "BTC" 1 None) holding_BTC))
  = (trace holding_BTC ++
     if dict_contains "BTC" (_asset_balances holding_BTC) then [] else [fetch_balance])%list /\
  _buy_time (snd (_executeOrder calm (Order "hold" "BTC" 1 None) holding_BTC))
  = _buy_time holding_BTC /\
  _sell_time (snd (_executeOrder calm (Order "hold" "BTC" 1 None) holding_BTC))
  = _sell_time holding_BTC.
Proof.
  apply (other_position_places_no_order calm (Order "hold" "BTC" 1 None) holding_BTC);
    discriminate.
Defined.

Lemma bind_Ok {A B} (m : M A) (k : A -> M B) self a self' :
  m self = (Ok a, self') -> bind m k self = k a self'.
Proof. intros H. unfold bind. now rewrite H. Qed.

Lemma bind_Raise {A B} (m : M A) (k : A -> M B) self e self' :
  m self = (Raise e, self') -> bind m k self = (Raise e, self').
Proof. intros H. unfold bind. now rewrite H. Qed.

Lemma timedelta_hours_in_range h :
  -999999999 <= h * us_per_hour / us_per_day <= 999999999 ->
  timedelta_hours (Some h) = Ok (h * us_per_hour).
Proof.
  intros [Hlo Hhi]. unfold timedelta_hours.
  apply Z.leb_le in Hlo, Hhi. now rewrite Hlo, Hhi.
Qed.

Lemma datetime_add_in_range t d :
  0 <= t + d < MAXORDINAL * us_per_day -> datetime_add t d = Ok (t + d).
Proof.
  intros [Hlo Hhi]. unfold datetime_add.
  apply Z.leb_le in Hlo. apply Z.ltb_lt in Hhi. now rewrite Hlo, Hhi.
Qed.

(** A buy order that the exchange accepts opens the position: when the
    asset is in the snapshot and the expiry is a representable date,
    [_executeOrder] returns normally, [_buy_time] holds the first clock read
    for the asset and [_sell_time] the second clock read plus the duration
    in hours; the entries of the other assets and the snapshot are as
    before. *)
Theorem buy_records_position world a amt h self :
  dict_contains a (_asset_balances self) = true ->
  market_buy world (trace self) (a ++ "/USDT") amt = None ->
  let placed := (trace self ++ [create_market_buy_order (a ++ "/USDT") amt])%list in
  let bought := clock world placed in
  let t := clock world (placed ++ [datetime_now]) in
  -999999999 <= h * us_per_hour / us_per_day <= 999999999 ->
  0 <= t + h * us_per_hour < MAXORDINAL * us_per_day ->
  let run := _executeOrder world (Order "buy" a amt (Some h)) self in
  fst run = Ok tt /\
  dict_get a (_buy_time (snd run)) = Some bought /\
  dict_get a (_sell_time (snd run)) = Some (t + h * us_per_hour) /\
  (forall b, b <> a ->
     dict_get b (_buy_time (snd run)) = dict_get b (_buy_time self) /\
     dict_get b (_sell_time (snd run)) = dict_get b (_sell_time self)) /\
  _asset_balances (snd run) = _asset_balances self.
Proof.
  intros Hknown Haccept placed bought t Hdays Hrange run. subst run.
  rewrite _executeOrder_known by exact Hknown.
  unfold submit_order. cbv beta iota zeta delta [position asset amount duration].
  rewrite String.eqb_refl.
  erewrite bind_Ok by (unfold ask; rewrite Haccept; reflexivity).
  erewrite bind_Ok by reflexivity.
  erewrite bind_Ok by reflexivity.
  erewrite bind_Ok by reflexivity.
  erewrite bind_Ok
    by (unfold lift; rewrite (timedelta_hours_in_range h Hdays); reflexivity).
  erewrite bind_Ok
    by (unfold lift; rewrite datetime_add_in_range by exact Hrange; reflexivity).
  erewrite bind_Ok by reflexivity.
  cbn [info modify fst snd record_event set_sell_time set_buy_time
       _buy_time _sell_time _asset_balances].
  repeat split.
  - apply dict_get_set_same.
  - apply dict_get_set_same.
  - now apply dict_get_set_other.
  - now apply dict_get_set_other.
Qed.

Lemma buy_records_position_witness :
  fst (_executeOrder calm (Order "buy" "BTC" 0.01 (Some 5)) only_BTC) = Ok tt /\
  dict_get "BTC" (_buy_time (snd (_executeOrder calm (Order "buy" "BTC" 0.01 (Some 5)) only_BTC)))
  = Some (t0 + 1) /\
  dict_get "BTC" (_sell_time (snd (_executeOrder calm (Order "buy" "BTC" 0.01 (Some 5)) only_BTC)))
  = Some (t0 + 2 + 5 * us_per_hour) /\
  (forall b, b <> "BTC" ->
     dict_get b (_buy_time (snd (_executeOrder calm (Order "buy" "BTC" 0.01 (Some 5)) only_BTC)))
     = dict_get b (_buy_time only_BTC) /\
     dict_get b (_sell_time (snd (_executeOrder calm (Order "buy" "BTC" 0.01 (Some 5)) only_BTC)))
     = dict_get b (_sell_time only_BTC)) /\
  _asset_balances (snd (_executeOrder calm (Order "buy" "BTC" 0.01 (Some 5)) only_BTC))
  = _asset_balances only_BTC.
Proof.
  apply (buy_records_position calm "BTC" 0.01%float 5 only_BTC).
  - reflexivity.
  - reflexivity.
  - vm_compute. split; discriminate.
  - vm_compute. split; [discriminate | reflexivity].
Defined.

(** A sell order that the exchange accepts closes the position: when the
    asset is in the snapshot and in both timestamp dictionaries,
    [_executeOrder] returns normally, the asset is in neither dictionary
    afterwards, the entries of the other assets are as before, and the
    calls made are the order and the log record of its execution. *)
Theorem sell_closes_position world a amt d self :
  dict_contains a (_asset_balances self) = true ->
  dict_contains a (_buy_time self) = true ->
  dict_contains a (_sell_time self) = true ->
  market_sell world (trace self) (a ++ "/USDT") amt = None ->
  let run := _executeOrder world (Order "sell" a amt d) self in
  fst run = Ok tt /\
  dict_contains a (_buy_time (snd run)) = false /\
  dict_contains a (_sell_time (snd run)) = false /\
  (forall b, b <> a ->
     dict_get b (_buy_time (snd run)) = dict_get b (_buy_time self) /\
     dict_get b (_sell_time (snd run)) = dict_get b (_sell_time self)) /\
  trace (snd run)
  = (trace self ++ [create_market_sell_order (a ++ "/USDT") amt;
                    logger_info (executed (Order "sell" a amt d))])%list.
Proof.
  intros Hknown Hbuy Hsell Haccept run. subst run.
  rewrite _executeOrder_known by exact Hknown.
  unfold submit_order. cbv beta iota zeta delta [position asset amount duration].
  change ("sell" =? "buy")%string with false. rewrite String.eqb_refl.
  erewrite bind_Ok by (unfold ask; rewrite Haccept; reflexivity).
  erewrite bind_Ok
    by (unfold del_buy_time; cbn [_buy_time record_event]; rewrite Hbuy; reflexivity).
  erewrite bind_Ok
    by (unfold del_sell_time; cbn [_sell_time record_event set_buy_time];
        rewrite Hsell; reflexivity).
  cbn [info modify fst snd record_event set_sell_time set_buy_time
       _buy_time _sell_time _asset_balances trace].
  repeat split.
  - apply dict_contains_remove_same.
  - apply dict_contains_remove_same.
  - now apply dict_get_remove_other.
  - now apply dict_get_remove_other.
  - now rewrite <- app_assoc.
Qed.

Lemma sell_closes_position_witness :
  fst (_executeOrder calm (Order "sell" "BTC" 0.4995 None) holding_BTC) = Ok tt /\
  dict_contains "BTC"
    (_buy_time (snd (_executeOrder calm (Order "sell" "BTC" 0.4995 None) holding_BTC))) = false /\
  dict_contains "BTC"
    (_sell_time (snd (_executeOrder calm (Order "sell" "BTC" 0.4995 None) holding_BTC))) = false /\
  (forall b, b <> "BTC" ->
     dict_get b (_buy_time (snd (_executeOrder calm (Order "sell" "BTC" 0.4995 None) holding_BTC)))
     = dict_get b (_buy_time holding_BTC) /\
     dict_get b (_sell_time (snd (_executeOrder calm (Order "sell" "BTC" 0.4995 None) holding_BTC)))
     = dict_get b (_sell_time holding_BTC)) /\
  trace (snd (_executeOrder calm (Order "sell" "BTC" 0.4995 None) holding_BTC))
  = (trace holding_BTC ++ [create_market_sell_order "BTC/USDT" 0.4995;
                           logger_info (executed (Order "sell" "BTC" 0.4995 None))])%list.
Proof.
  apply (sell_closes_position calm "BTC" 0.4995%float None holding_BTC); reflexivity.
Defined.

(** ** Further properties of the sweep *)

Lemma record_events_nil self : record_events [] self = self.
Proof. destruct self. unfold record_events. simpl. now rewrite app_nil_r. Qed.

Lemma record_events_cons ev evs self :
  record_events evs (record_event ev self) = record_events (ev :: evs) self.
Proof. unfold record_events, record_event. simpl. now rewrite <- app_assoc. Qed.

Lemma sweep_loop_nothing_due world size items self :
  List.length (_sell_time self) = size ->
  (forall tr a time, In (a, time) items -> (time <? clock world tr) = false) ->
  for_items _sell_time size items (fun asset time =>
    t <- now world ;;
    when (time <? t)%Z
      (balance <- asset_balance asset ;;
       order <- lift (TradeOrder_call "sell" asset balance None) ;;
       _executeOrder world order)) self
  = (Ok tt, record_events (repeat datetime_now (List.length items)) self).
Proof.
  revert self. induction items as [| [a time] items IH]; intros self Hsize Hdue.
  - cbn [for_items]. erewrite bind_Ok by reflexivity.
    rewrite Hsize, Nat.eqb_refl. cbn [negb List.length repeat].
    now rewrite record_events_nil.
  - cbn [for_items]. erewrite bind_Ok by reflexivity.
    rewrite Hsize, Nat.eqb_refl. cbn [negb].
    erewrite bind_Ok with (a := tt) (self' := record_event datetime_now self).
    2:{ unfold bind at 1, now, ask. cbv beta iota.
        now rewrite (Hdue (trace self) a time (or_introl eq_refl)). }
    rewrite IH.
    + cbn [List.length repeat]. now rewrite record_events_cons.
    + exact Hsize.
    + intros tr b tb Hin. apply (Hdue tr b tb). now right.
Qed.

(** When no tracked position is overdue, whenever the clock is read, the
    sweep returns normally: it reads the clock once per tracked position
    and does nothing else. *)
Theorem sweep_with_nothing_due world self :
  (forall tr a time, In (a, time) (_sell_time self) -> (time <? clock world tr) = false) ->
  sellRequiredAssets world self
  = (Ok tt, record_events (repeat datetime_now (List.length (_sell_time self))) self).
Proof.
  intros Hdue. unfold sellRequiredAssets, _sellOverdueAssets.
  erewrite bind_Ok by reflexivity.
  now apply sweep_loop_nothing_due.
Qed.

Lemma sweep_with_nothing_due_witness :
  sellRequiredAssets calm_at_noon holding_BTC
  = (Ok tt, record_events (repeat datetime_now (List.length (_sell_time holding_BTC)))
              holding_BTC).
Proof.
  apply (sweep_with_nothing_due calm_at_noon holding_BTC).
  intros tr a time [H | []]. injection H as _ <-. reflexivity.
Defined.

(** ** The orders of a bulk liquidation *)

Lemma filter_not_an_order evs : Forall not_an_order evs -> filter is_order evs = [].
Proof.
  induction 1 as [| ev evs Hev _ IH]; simpl; [reflexivity |].
  unfold not_an_order in Hev. now rewrite Hev.
Qed.

(** After a call [ev], what follows adds calls that satisfy [P]. *)
Lemma ask_then {A B} (P : event -> Prop) ev (answer : list event -> Result A)
    (k : A -> M B) self :
  (forall a, steps (extends_with P) (k a)) ->
  exists evs,
    trace (snd (bind (ask ev answer) k self)) = (trace self ++ ev :: evs)%list /\
    Forall P evs.
Proof.
  intros Hk. unfold bind, ask.
  destruct (answer (trace self)) as [a | e].
  - destruct (Hk a (record_event ev self)) as [evs [E F]].
    exists evs. split; [| exact F]. rewrite E. simpl. now rewrite <- app_assoc.
  - exists []. split; [reflexivity | constructor].
Qed.

Lemma not_an_order_steps_info r : steps (extends_with not_an_order) (info r).
Proof. intros s. now apply extends_with_event. Qed.

Lemma not_an_order_steps_now world :
  steps (extends_with not_an_order) (now world).
Proof. intros s. now apply extends_with_event. Qed.

(** A buy or sell order makes [submit_order] call the exchange once, first
    of all. *)
Lemma submit_order_calls_once world order self :
  position order = "buy" \/ position order = "sell" ->
  exists evs,
    trace (snd (submit_order world order self))
    = (trace self ++ order_call order :: evs)%list /\
    Forall not_an_order evs.
Proof.
  intros Hpos. unfold submit_order, order_call.
  pose proof (extends_with_trans not_an_order) as Htrans.
  pose proof (extends_with_refl not_an_order) as Hrefl.
  destruct Hpos as [Hpos | Hpos]; rewrite Hpos; simpl; apply ask_then; intros _.
  - apply steps_bind; [exact Htrans | apply (not_an_order_steps_now world) |].
    intros bought. apply steps_bind; [exact Htrans | |].
    { apply steps_modify. intros s. apply extends_with_set_buy_time. }
    intros _. apply steps_bind; [exact Htrans | apply (not_an_order_steps_now world) |].
    intros t. apply steps_bind_lift; [exact Hrefl |].
    intros d _. apply steps_bind_lift; [exact Hrefl |].
    intros expires _. apply steps_bind; [exact Htrans | |].
    { apply steps_modify. intros s. apply extends_with_set_sell_time. }
    intros _. apply not_an_order_steps_info.
  - apply steps_bind; [exact Htrans | |].
    { apply steps_del_buy_time; [exact Hrefl | apply extends_with_set_buy_time]. }
    intros _. apply steps_bind; [exact Htrans | |].
    { apply steps_del_sell_time; [exact Hrefl | apply extends_with_set_sell_time]. }
    intros _. apply not_an_order_steps_info.
Qed.

(** The orders among the calls of [_sellAsset]: one sell for the computed
    amount when the asset has a balance and the amount is above zero. *)
Lemma _sellAsset_orders world a percent self :
  exists evs,
    trace (snd (_sellAsset world a percent self)) = (trace self ++ evs)%list /\
    filter is_order evs
    = match dict_get a (_asset_balances self) with
      | Some balance =>
        if (0 <? balance * percent / 100 * (1 - max_fee self))%float
        then [create_market_sell_order (a ++ "/USDT")
                (balance * percent / 100 * (1 - max_fee self))%float]
        else []
      | None => []
      end.
Proof.
  rewrite _sellAsset_unfold.
  destruct (dict_get a (_asset_balances self)) as [balance |].
  2:{ exists [logger_info (failed_to_sell a (KeyError a))]. now split. }
  cbv zeta.
  destruct (0 <? balance * percent / 100 * (1 - max_fee self))%float.
  2:{ exists []. split; [now rewrite app_nil_r | reflexivity]. }
  destruct (submit_order_calls_once world
              (Order "sell" a (balance * percent / 100 * (1 - max_fee self))%float None)
              self (or_intror eq_refl)) as [evs [E F]].
  unfold order_call in E. simpl in E.
  destruct (submit_order world _ self) as [[[] | e] s']; simpl in E.
  - eexists. split; [exact E |]. simpl. now rewrite filter_not_an_order.
  - exists ((create_market_sell_order (a ++ "/USDT")
               (balance * percent / 100 * (1 - max_fee self))%float :: evs)
            ++ [logger_info (failed_to_sell a e)])%list.
    split.
    + simpl. rewrite E. now rewrite <- app_assoc.
    + simpl. rewrite filter_app, filter_not_an_order by exact F. reflexivity.
Qed.

Lemma dict_get_In {V} a (v : V) d :
  NoDup (map fst d) -> In (a, v) d -> dict_get a d = Some v.
Proof.
  induction d as [| [k w] d IH]; simpl; intros Hnd Hin; [contradiction |].
  inversion Hnd as [| ? ? Hk Hnd']; subst.
  destruct Hin as [H | H].
  - injection H as -> ->. now rewrite String.eqb_refl.
  - destruct (String.eqb_spec k a) as [-> | _]; [| now apply IH].
    exfalso. apply Hk. change a with (fst (a, v)). now apply in_map.
Qed.

Lemma liquidation_loop world snapshot fee items self :
  _asset_balances self = snapshot -> max_fee self = fee ->
  (forall a b, In (a, b) items -> dict_get a snapshot = Some b) ->
  exists evs,
    trace (snd (for_each items (fun item =>
      when ((0 <? snd item)%float && negb (fst item =? "USDT")%string)
        (_sellAsset world (fst item) 100)) self))
    = (trace self ++ evs)%list /\
    filter is_order evs = map (liquidation_order fee) (filter (liquidated fee) items).
Proof.
  revert self. induction items as [| [a b] items IH]; intros self Hsnap Hfee Hitems.
  - exists []. split; [simpl; now rewrite app_nil_r | reflexivity].
  - cbn [for_each]. unfold bind at 1.
    set (go := (0 <? snd (a, b))%float && negb (fst (a, b) =? "USDT")%string).
    assert (Hstep : exists evs1 s1,
      when go (_sellAsset world (fst (a, b)) 100) self = (Ok tt, s1) /\
      trace s1 = (trace self ++ evs1)%list /\
      _asset_balances s1 = snapshot /\ max_fee s1 = fee /\
      filter is_order evs1
      = if go && (0 <? sell_amount fee b)%float then [liquidation_order fee (a, b)] else []).
    { destruct go; simpl.
      - destruct (_sellAsset_orders world a 100 self) as [evs1 [E1 F1]].
        pose proof (_sellAsset_returns world a 100 self) as Hret.
        destruct (_sellAsset_same_snapshot world a 100 self) as [Hb Hf].
        destruct (_sellAsset world a 100 self) as [r s1]. simpl in *. subst r.
        exists evs1, s1. repeat split; try congruence.
        rewrite F1, Hsnap, (Hitems a b (or_introl eq_refl)), Hfee. reflexivity.
      - exists [], self. repeat split; auto. now rewrite app_nil_r. }
    destruct Hstep as (evs1 & s1 & Hrun & E1 & Hsnap1 & Hfee1 & F1).
    rewrite Hrun.
    destruct (IH s1 Hsnap1 Hfee1) as [evs [E F]].
    { intros a' b' Hin. apply Hitems. now right. }
    exists (evs1 ++ evs)%list. split.
    + rewrite E, E1. now rewrite app_assoc.
    + rewrite filter_app, F, F1. cbn [filter].
      unfold liquidated at 2. fold go. cbn [snd].
      destruct (go && (0 <? sell_amount fee b)%float); reflexivity.
Qed.

(** A bulk liquidation places one sell order for each entry of the
    snapshot that has a balance above zero, is not USDT and gives an amount
    above zero, in the order of the snapshot and for the whole balance less
    the fee; it places no other order. *)
Theorem sellAllAssets_orders world self :
  NoDup (map fst (_asset_balances self)) ->
  exists evs,
    trace (snd (_sellAllAssets world self)) = (trace self ++ evs)%list /\
    filter is_order evs
    = map (liquidation_order (max_fee self))
        (filter (liquidated (max_fee self)) (_asset_balances self)).
Proof.
  intros Hnd. unfold _sellAllAssets. erewrite bind_Ok by reflexivity.
  apply liquidation_loop with (snapshot := _asset_balances self); try reflexivity.
  intros a b. now apply dict_get_In.
Qed.

Lemma sellAllAssets_orders_witness :
  exists evs,
    trace (snd (_sellAllAssets rejecting holding_BTC)) = (trace holding_BTC ++ evs)%list /\
    filter is_order evs
    = map (liquidation_order (max_fee holding_BTC))
        (filter (liquidated (max_fee holding_BTC)) (_asset_balances holding_BTC)).
Proof.
  apply (sellAllAssets_orders rejecting holding_BTC).
  repeat constructor; simpl; intuition discriminate.
Defined.

(** ** Construction *)







(** ** Further properties of buying *)

(** [_buyAsset], case by case. *)
Lemma _buyAsset_unfold world a percent d self :
  _buyAsset world a percent d self =
  match dict_get "USDT" (_asset_balances self) with
  | None => (Raise (KeyError "USDT"), self)
  | Some usdt =>
    let amount_usdt := (usdt * percent / 100 * (1 - max_fee self))%float in
    let s1 := if (amount_usdt =? 0)%float
              then record_event (logger_info (cannot_buy_no_USDT a)) self else self in
    let s2 := record_event (fetch_ticker (a ++ "/USDT")) s1 in
    match ticker_last world (trace s1) (a ++ "/USDT") with
    | Raise e => (Ok tt, record_event (logger_info (failed_to_buy a e)) s2)
    | Ok price =>
      if (price =? 0)%float
      then (Ok tt, record_event (logger_info (failed_to_buy a ZeroDivisionError)) s2)
      else
        if (0 <? amount_usdt / price)%float then
          match _executeOrder world (Order "buy" a (amount_usdt / price)%float d) s2 with
          | (Ok _, s') => (Ok tt, s')
          | (Raise e, s') => (Ok tt, record_event (logger_info (failed_to_buy a e)) s')
          end
        else (Ok tt, s2)
    end
  end.
Proof.
  unfold _buyAsset, bind at 1 2 3, asset_balance, gets.
  destruct (dict_get "USDT" (_asset_balances self)) as [usdt |]; [| reflexivity].
  cbv beta iota zeta.
  assert (Hwhen : forall b : bool,
    when b (info (cannot_buy_no_USDT a)) self
    = (Ok tt, if b then record_event (logger_info (cannot_buy_no_USDT a)) self else self))
    by (intros []; reflexivity).
  rewrite Hwhen. cbv beta iota.
  set (s1 := if (usdt * percent / 100 * (1 - max_fee self) =? 0)%float
             then record_event (logger_info (cannot_buy_no_USDT a)) self else self).
  unfold try_except, _convertUsdtToAsset, bind at 1 2, ask, lift. cbv beta iota.
  destruct (ticker_last world (trace s1) (a ++ "/USDT")) as [price | e]; [| reflexivity].
  unfold _convertUsdtToAssetWithPrice.
  destruct (price =? 0)%float; [reflexivity |].
  destruct (0 <? usdt * percent / 100 * (1 - max_fee self) / price)%float;
    [| reflexivity].
  unfold when, bind at 1, lift, TradeOrder_call. cbv beta iota.
  destruct (_executeOrder world _ _) as [[[] | e] s']; reflexivity.
Qed.

(** Without a usable price [_buyAsset] places no order: when the ticker
    call raises, or gives the price zero (the conversion divides by it), the
    call returns normally, the only exchange call is the ticker fetch, the
    failure is logged, and the snapshot and the timestamp dictionaries are
    as before. *)
Theorem buyAsset_without_price world a percent d usdt e self :
  dict_get "USDT" (_asset_balances self) = Some usdt ->
  (forall tr, ticker_last world tr (a ++ "/USDT") = Raise e) \/
  (e = ZeroDivisionError /\
   exists price, (price =? 0)%float = true /\
                 forall tr, ticker_last world tr (a ++ "/USDT") = Ok price) ->
  _buyAsset world a percent d self
  = (Ok tt,
     record_events
       ((if (usdt * percent / 100 * (1 - max_fee self) =? 0)%float
         then [logger_info (cannot_buy_no_USDT a)] else [])
        ++ [fetch_ticker (a ++ "/USDT"); logger_info (failed_to_buy a e)])
       self).
Proof.
  intros Husdt Hprice. rewrite _buyAsset_unfold, Husdt. cbv zeta.
  assert (Hstate : forall s evs ev1 ev2,
    record_event ev2 (record_event ev1 (record_events evs s))
    = record_events (evs ++ [ev1; ev2]) s).
  { intros s evs ev1 ev2. unfold record_event, record_events. simpl.
    now rewrite <- !app_assoc. }
  assert (Hs1 :
    (if (usdt * percent / 100 * (1 - max_fee self) =? 0)%float
     then record_event (logger_info (cannot_buy_no_USDT a)) self else self)
    = record_events
        (if (usdt * percent / 100 * (1 - max_fee self) =? 0)%float
         then [logger_info (cannot_buy_no_USDT a)] else []) self).
  { destruct (_ =? 0)%float; [reflexivity | now rewrite record_events_nil]. }
  rewrite Hs1.
  destruct Hprice as [Hraise | (-> & price & Hzero & Hticker)].
  - rewrite Hraise. now rewrite Hstate.
  - rewrite Hticker, Hzero. now rewrite Hstate.
Qed.

Lemma buyAsset_without_price_witness :
  _buyAsset quoting_zero "BTC" 20 (Some 5) holding_BTC
  = (Ok tt,
     record_events
       [fetch_ticker "BTC/USDT"; logger_info (failed_to_buy "BTC" ZeroDivisionError)]
       holding_BTC).
Proof.
  apply (buyAsset_without_price quoting_zero "BTC" 20 (Some 5) 1000 ZeroDivisionError
           holding_BTC).
  - reflexivity.
  - right. split; [reflexivity |]. exists 0%float. split; [reflexivity |].
    intros tr. reflexivity.
Defined.

(** The order of a buy: with a quote balance, a price other than zero, an
    amount above zero and the asset in the snapshot, [_buyAsset] calls the
    exchange for exactly one order, a market buy of
    [usdt * percent / 100 * (1 - max_fee) / price] units of the asset. *)
Theorem buyAsset_order world a percent d usdt price self :
  dict_get "USDT" (_asset_balances self) = Some usdt ->
  dict_contains a (_asset_balances self) = true ->
  (forall tr, ticker_last world tr (a ++ "/USDT") = Ok price) ->
  (price =? 0)%float = false ->
  (0 <? usdt * percent / 100 * (1 - max_fee self) / price)%float = true ->
  exists evs,
    trace (snd (_buyAsset world a percent d self)) = (trace self ++ evs)%list /\
    filter is_order evs
    = [create_market_buy_order (a ++ "/USDT")
         (usdt * percent / 100 * (1 - max_fee self) / price)%float].
Proof.
  intros Husdt Hknown Hticker Hprice Hpos.
  rewrite _buyAsset_unfold, Husdt. cbv zeta. rewrite Hticker, Hprice, Hpos.
  set (amount_usdt := (usdt * percent / 100 * (1 - max_fee self))%float) in *.
  set (s1 := if (amount_usdt =? 0)%float
             then record_event (logger_info (cannot_buy_no_USDT a)) self else self).
  assert (Hs1 : exists pre, trace s1 = (trace self ++ pre)%list /\
                            Forall not_an_order pre /\
                            _asset_balances s1 = _asset_balances self).
  { subst s1. destruct (amount_usdt =? 0)%float.
    - exists [logger_info (cannot_buy_no_USDT a)]. repeat split. now constructor.
    - exists []. repeat split; [now rewrite app_nil_r | constructor]. }
  destruct Hs1 as (pre & Epre & Fpre & Hbal).
  rewrite _executeOrder_known by (simpl; now rewrite Hbal).
  destruct (submit_order_calls_once world
              (Order "buy" a (amount_usdt / price)%float d)
              (record_event (fetch_ticker (a ++ "/USDT")) s1) (or_introl eq_refl))
    as [evs [E F]].
  unfold order_call in E. simpl in E. rewrite Epre in E.
  destruct (submit_order world _ _) as [[[] | e] s']; simpl in E |- *.
  - exists (pre ++ fetch_ticker (a ++ "/USDT")
              :: create_market_buy_order (a ++ "/USDT") (amount_usdt / price)%float
              :: evs)%list. split.
    + rewrite E, <- !app_assoc. reflexivity.
    + rewrite filter_app, filter_not_an_order by exact Fpre. simpl.
      now rewrite filter_not_an_order.
  - exists (pre ++ fetch_ticker (a ++ "/USDT")
              :: create_market_buy_order (a ++ "/USDT") (amount_usdt / price)%float
              :: evs ++ [logger_info (failed_to_buy a e)])%list. split.
    + rewrite E, <- !app_assoc. reflexivity.
    + rewrite filter_app, filter_not_an_order by exact Fpre. simpl.
      rewrite filter_app, filter_not_an_order by exact F. reflexivity.
Qed.

Lemma buyAsset_order_witness :
  exists evs,
    trace (snd (_buyAsset calm "BTC" 20 (Some 5) holding_BTC))
    = (trace holding_BTC ++ evs)%list /\
    filter is_order evs = [create_market_buy_order "BTC/USDT" 0.007992].
Proof.
  apply (buyAsset_order calm "BTC" 20 (Some 5) 1000 25000 holding_BTC);
    reflexivity.
Defined.

(** ** Looking up the snapshot after a refresh *)

Lemma dict_get_app {V} a (d1 d2 : dict V) :
  dict_get a (d1 ++ d2)%list
  = match dict_get a d1 with Some v => Some v | None => dict_get a d2 end.
Proof.
  induction d1 as [| [k v] d1 IH]; simpl; [reflexivity |].
  now destruct (k =? a)%string.
Qed.

Lemma dict_set_keys {V} x k (v : V) d :
  In x (map fst (dict_set k v d)) <-> x = k \/ In x (map fst d).
Proof.
  induction d as [| [k' v'] d IH]; simpl.
  - intuition.
  - destruct (String.eqb_spec k' k) as [-> | Hne]; simpl.
    + intuition.
    + rewrite IH. intuition.
Qed.

Lemma dict_set_NoDup {V} k (v : V) d :
  NoDup (map fst d) -> NoDup (map fst (dict_set k v d)).
Proof.
  induction d as [| [k' v'] d IH]; simpl; intros Hnd.
  - repeat constructor. intros [].
  - inversion Hnd as [| ? ? Hk Hnd']; subst.
    destruct (String.eqb_spec k' k) as [-> | Hne]; simpl.
    + now constructor.
    + constructor; [| now apply IH].
      rewrite dict_set_keys. intros [H | H]; [now apply Hne | now apply Hk].
Qed.

Lemma stored_NoDup infos d : NoDup (map fst d) -> NoDup (map fst (stored infos d)).
Proof.
  revert d. induction infos as [| [a [free |]] infos IH]; intros d Hnd; simpl; auto.
  apply IH. now apply dict_set_NoDup.
Qed.

Lemma stored_lookup a (listing : list (string * float)) d :
  dict_get a (stored (map (fun p => (fst p, Some (snd p))) listing) d)
  = match dict_get a (rev listing) with Some v => Some v | None => dict_get a d end.
Proof.
  revert d. induction listing as [| [k v] listing IH]; intros d; simpl; [reflexivity |].
  rewrite IH, dict_get_app. destruct (dict_get a (rev listing)); [reflexivity |].
  simpl. destruct (String.eqb_spec k a) as [-> | Hne].
  - apply dict_get_set_same.
  - apply dict_get_set_other. congruence.
Qed.

(** After a refresh that the exchange answers with a listing of amounts,
    the snapshot has each listed asset once, with the amount of its last
    entry in the listing, and no other asset. *)
Theorem refresh_lookup world self listing :
  balances world (trace self) = Ok (map (fun p => (fst p, Some (snd p))) listing) ->
  fst (_refreshBalances world self) = Ok tt /\
  NoDup (map fst (_asset_balances (snd (_refreshBalances world self)))) /\
  forall a,
    dict_get a (_asset_balances (snd (_refreshBalances world self)))
    = dict_get a (rev listing).
Proof.
  intros Hfetch. split; [| split].
  - apply _refreshBalances_returns with (infos := map (fun p => (fst p, Some (snd p))) listing);
      [exact Hfetch |].
    apply Forall_forall. intros info Hin. apply in_map_iff in Hin as [p [<- _]].
    discriminate.
  - rewrite _refreshBalances_unfold, Hfetch, store_balances_snapshot.
    apply stored_NoDup. constructor.
  - intros a. rewrite _refreshBalances_unfold, Hfetch, store_balances_snapshot.
    cbn [_asset_balances record_event set_asset_balances]. rewrite stored_lookup.
    now destruct (dict_get a (rev listing)).
Qed.

Lemma refresh_lookup_witness :
  fst (_refreshBalances calm holding_BTC) = Ok tt /\
  NoDup (map fst (_asset_balances (snd (_refreshBalances calm holding_BTC)))) /\
  forall a,
    dict_get a (_asset_balances (snd (_refreshBalances calm holding_BTC)))
    = dict_get a (rev [("USDT", 1000%float); ("BTC", 0.5%float)]).
Proof.
  apply (refresh_lookup calm holding_BTC [("USDT", 1000%float); ("BTC", 0.5%float)]).
  reflexivity.
Defined.

(** ** The article provider *)

Lemma read_articles_frame i items articles last self :
  _last_article_times (snd (read_articles i items articles last self))
  = _last_article_times self /\
  _article_getters (snd (read_articles i items articles last self))
  = _article_getters self.
Proof.
  revert articles last self.
  induction items as [| [art time] items IH]; intros articles last self; simpl.
  - now split.
  - destruct (nth_error (_last_article_times self) i) as [seen |]; [| now split].
    destruct (seen <? time); [| apply IH].
    destruct (dict_get "title" art) as [title |]; [| now split].
    apply (IH _ _ (mkArticleProvider _ _ _)).
Qed.

Lemma read_articles_last i items articles last self articles' last' :
  fst (read_articles i items articles last self) = Ok (articles', last') ->
  last <= last'.
Proof.
  revert articles last self.
  induction items as [| [art time] items IH]; intros articles last self; simpl.
  - intros H. injection H as _ <-. lia.
  - destruct (nth_error (_last_article_times self) i) as [seen |]; [| discriminate].
    destruct (seen <? time); [| apply IH].
    destruct (dict_get "title" art) as [title |]; [| discriminate].
    intros H. apply IH in H.
    destruct (Z.ltb_spec last time); lia.
Qed.

Lemma nth_error_list_set_other {A} i k (v : A) l :
  k <> i -> nth_error (list_set i v l) k = nth_error l k.
Proof.
  revert i k. induction l as [| x l IH]; intros i k Hne; [now destruct i |].
  destruct i, k; simpl; try reflexivity; [contradiction |].
  apply IH. congruence.
Qed.

Lemma Forall2_le_refl l : Forall2 Z.le l l.
Proof. induction l; constructor; [lia | assumption]. Qed.

Lemma Forall2_le_trans l1 l2 l3 :
  Forall2 Z.le l1 l2 -> Forall2 Z.le l2 l3 -> Forall2 Z.le l1 l3.
Proof.
  intros H12. revert l3. induction H12; intros l3 H23; inversion H23; subst;
    constructor; [lia | auto].
Qed.

Lemma Forall2_le_list_set i t v l :
  nth_error l i = Some t -> t <= v -> Forall2 Z.le l (list_set i v l).
Proof.
  revert i. induction l as [| x l IH]; intros i Hnth Hle; [now destruct i |].
  destruct i; simpl in *.
  - injection Hnth as ->. constructor; [exact Hle | apply Forall2_le_refl].
  - constructor; [lia | now apply IH].
Qed.

Lemma poll_feeds_monotone feeds i articles self :
  (forall j t g, nth_error feeds j = Some (t, g) ->
                 nth_error (_last_article_times self) (i + j) = Some t) ->
  Forall2 Z.le (_last_article_times self)
    (_last_article_times (snd (poll_feeds i feeds articles self))).
Proof.
  revert i articles self.
  induction feeds as [| [t g] feeds IH]; intros i articles self Hfeeds; simpl.
  - apply Forall2_le_refl.
  - destruct (g (feed_trace self)) as [items | e]; [| apply Forall2_le_refl].
    set (called := mkArticleProvider _ _ (feed_trace self ++ [article_getter i])).
    destruct (read_articles_frame i items articles t called) as [Htimes _].
    pose proof (read_articles_last i items articles t called) as Hlast.
    destruct (read_articles i items articles t called) as [[[articles' last'] | e] self'];
      simpl in Htimes, Hlast.
    2:{ simpl. rewrite Htimes. apply Forall2_le_refl. }
    specialize (Hlast _ _ eq_refl).
    assert (Hi : nth_error (_last_article_times self) i = Some t).
    { specialize (Hfeeds 0%nat t g eq_refl). now rewrite Nat.add_0_r in Hfeeds. }
    eapply Forall2_le_trans; [| apply IH].
    + simpl. rewrite Htimes. simpl.
      eapply Forall2_le_list_set; eassumption.
    + intros j t' g' Hj. cbn [_last_article_times]. rewrite Htimes.
      cbn [_last_article_times].
      rewrite nth_error_list_set_other by lia.
      specialize (Hfeeds (S j) t' g' Hj). now rewrite Nat.add_succ_r in Hfeeds.
Qed.

Lemma nth_error_combine_fst {A B} (l1 : list A) (l2 : list B) j a b :
  nth_error (combine l1 l2) j = Some (a, b) -> nth_error l1 j = Some a.
Proof.
  revert l2 j. induction l1 as [| x l1 IH]; intros [| y l2] [| j]; simpl;
    try discriminate.
  - intros H. now injection H as -> _.
  - apply IH.
Qed.

(** A poll never moves a feed's last-seen time back, whatever the getters
    answer and however the poll ends: afterwards there is a last-seen time
    for each one before, feed by feed the same or later. *)
Theorem getArticles_times_never_go_back self :
  Forall2 Z.le (_last_article_times self)
    (_last_article_times (snd (getArticles self))).
Proof.
  unfold getArticles. apply poll_feeds_monotone.
  intros j t g Hj. simpl. eapply nth_error_combine_fst. exact Hj.
Qed.

Lemma read_articles_titled i items articles last self seen :
  nth_error (_last_article_times self) i = Some seen ->
  titled items -> seen <= last ->
  fst (read_articles i items articles last self)
  = Ok ((articles ++ fresh seen items)%list, fold_left Z.max (map snd items) last).
Proof.
  intros Hseen Htitled. revert articles last self Hseen.
  induction Htitled as [| [art time] items Htitle _ IH];
    intros articles last self Hseen Hle; simpl.
  - unfold fresh. simpl. now rewrite app_nil_r.
  - rewrite Hseen. unfold fresh. simpl.
    destruct (Z.ltb_spec seen time) as [Hnew | Hold].
    + simpl in Htitle. destruct (dict_get "title" art) as [title |]; [| contradiction].
      rewrite IH.
      * simpl. rewrite <- app_assoc. simpl. f_equal. f_equal.
        destruct (Z.ltb_spec last time); f_equal; lia.
      * exact Hseen.
      * destruct (Z.ltb_spec last time); lia.
    + rewrite IH by assumption. f_equal. f_equal. f_equal. lia.
Qed.

Lemma nth_error_middle {A} (done : list A) t rest :
  nth_error (done ++ t :: rest) (List.length done) = Some t.
Proof. induction done; simpl; auto. Qed.

Lemma list_set_middle {A} (done : list A) t v rest :
  list_set (List.length done) v (done ++ t :: rest) = (done ++ v :: rest)%list.
Proof. induction done; simpl; [reflexivity | now f_equal]. Qed.

(** The poll over feeds that serve [batches] with titled articles, from
    feed [length done] on. *)
Lemma poll_feeds_served rest getters batches done articles self :
  Forall2 serves getters batches ->
  List.length rest = List.length getters ->
  Forall titled batches ->
  _last_article_times self = (done ++ rest)%list ->
  fst (poll_feeds (List.length done) (combine rest getters) articles self)
  = Ok (articles ++ List.concat (map (fun tb => fresh (fst tb) (snd tb)) (combine rest batches)))%list /\
  _last_article_times (snd (poll_feeds (List.length done) (combine rest getters) articles self))
  = (done ++ map (fun tb => latest (fst tb) (snd tb)) (combine rest batches))%list /\
  _article_getters (snd (poll_feeds (List.length done) (combine rest getters) articles self))
  = _article_getters self.
Proof.
  intros Hserves. revert rest done articles self.
  induction Hserves as [| g b getters batches Hg _ IH];
    intros rest done articles self Hlen Htitled Htimes.
  - destruct rest; [| discriminate]. simpl. rewrite app_nil_r. auto.
  - destruct rest as [| t rest]; [discriminate |].
    injection Hlen as Hlen. inversion Htitled as [| ? ? Hb Hbs]; subst.
    cbn [combine poll_feeds]. rewrite Hg.
    set (called := mkArticleProvider _ _ (feed_trace self ++ [article_getter _])).
    assert (Hseen : nth_error (_last_article_times called) (List.length done) = Some t)
      by (simpl; rewrite Htimes; apply nth_error_middle).
    pose proof (read_articles_titled _ b articles t called t Hseen Hb (Z.le_refl t)) as Hread.
    destruct (read_articles_frame (List.length done) b articles t called) as [Ht Hgetters].
    destruct (read_articles (List.length done) b articles t called)
      as [[[articles' last'] | e] self']; simpl in Hread, Ht, Hgetters; [| discriminate].
    injection Hread as -> ->.
    set (next := mkArticleProvider _ _ _).
    assert (Hnext : _last_article_times next
                    = ((done ++ [latest t b]) ++ rest)%list).
    { subst next. simpl. rewrite Ht, Htimes, list_set_middle, <- app_assoc. reflexivity. }
    specialize (IH rest (done ++ [latest t b])%list
                  (articles ++ fresh t b)%list next Hlen Hbs Hnext).
    rewrite length_app, Nat.add_1_r in IH. destruct IH as (Hfst & Hsnd & Hg').
    rewrite Hfst, Hsnd, Hg'. cbn [map List.concat fst snd]. repeat split.
    + now rewrite <- app_assoc.
    + now rewrite <- app_assoc.
    + subst next. simpl. exact Hgetters.
Qed.

Lemma getArticles_served_state self batches :
  Forall2 serves (_article_getters self) batches ->
  List.length (_last_article_times self) = List.length (_article_getters self) ->
  Forall titled batches ->
  fst (getArticles self)
  = Ok (List.concat (map (fun tb => fresh (fst tb) (snd tb))
                  (combine (_last_article_times self) batches))) /\
  _last_article_times (snd (getArticles self))
  = map (fun tb => latest (fst tb) (snd tb)) (combine (_last_article_times self) batches) /\
  _article_getters (snd (getArticles self)) = _article_getters self.
Proof.
  intros Hserves Hlen Htitled. unfold getArticles.
  apply (poll_feeds_served (_last_article_times self) (_article_getters self) batches
           [] [] self Hserves Hlen Htitled eq_refl).
Qed.

(** A poll of feeds that serve titled articles returns, feed after feed
    and in the order served, the articles that are newer than the feed's
    last-seen time, and moves each last-seen time to the latest time served
    by the feed if that is later. *)
Theorem getArticles_served self batches :
  Forall2 serves (_article_getters self) batches ->
  List.length (_last_article_times self) = List.length (_article_getters self) ->
  Forall titled batches ->
  fst (getArticles self)
  = Ok (List.concat (map (fun tb => fresh (fst tb) (snd tb))
                  (combine (_last_article_times self) batches))) /\
  _last_article_times (snd (getArticles self))
  = map (fun tb => latest (fst tb) (snd tb)) (combine (_last_article_times self) batches).
Proof.
  intros Hserves Hlen Htitled.
  destruct (getArticles_served_state self batches Hserves Hlen Htitled) as (H1 & H2 & _).
  now split.
Qed.

Lemma getArticles_served_witness :
  fst (getArticles one_feed)
  = Ok (List.concat (map (fun tb => fresh (fst tb) (snd tb))
                  (combine (_last_article_times one_feed) [two_articles]))) /\
  _last_article_times (snd (getArticles one_feed))
  = map (fun tb => latest (fst tb) (snd tb))
      (combine (_last_article_times one_feed) [two_articles]).
Proof.
  apply (getArticles_served one_feed [two_articles]).
  - repeat constructor.
  - reflexivity.
  - repeat constructor; discriminate.
Defined.

Example getArticles_one_feed_run :
  fst (getArticles one_feed) = Ok (map fst two_articles) /\
  _last_article_times (snd (getArticles one_feed)) = [t0 - us_per_hour] /\
  feed_trace (snd (getArticles one_feed))
  = [article_getter 0; trading_on_article "Rates held"; trading_on_article "ETF approved"].
Proof. repeat split. Qed.

Lemma fold_left_max_ge l m :
  m <= fold_left Z.max l m /\ forall x, In x l -> x <= fold_left Z.max l m.
Proof.
  revert m. induction l as [| y l IH]; intros m; simpl.
  - split; [lia | intros x []].
  - destruct (IH (Z.max m y)) as [Hm Hin]. split; [lia |].
    intros x [<- | Hx]; [lia | now apply Hin].
Qed.

Lemma fold_left_max_absorb l m :
  (forall x, In x l -> x <= m) -> fold_left Z.max l m = m.
Proof.
  revert m. induction l as [| y l IH]; intros m Hle; simpl; [reflexivity |].
  rewrite Z.max_l by (apply Hle; now left). apply IH. intros x Hx. apply Hle. now right.
Qed.

Lemma batch_time_le_latest seen batch p : In p batch -> snd p <= latest seen batch.
Proof.
  intros Hin. unfold latest. apply fold_left_max_ge. now apply in_map.
Qed.

Lemma filter_none {A} (f : A -> bool) l :
  (forall x, In x l -> f x = false) -> filter f l = [].
Proof.
  induction l as [| x l IH]; intros H; simpl; [reflexivity |].
  rewrite (H x (or_introl eq_refl)). apply IH. intros y Hy. apply H. now right.
Qed.

Lemma fresh_after_latest seen batch : fresh (latest seen batch) batch = [].
Proof.
  unfold fresh. rewrite filter_none; [reflexivity |].
  intros p Hin. apply Z.ltb_ge. now apply batch_time_le_latest.
Qed.

Lemma latest_idempotent seen batch : latest (latest seen batch) batch = latest seen batch.
Proof.
  unfold latest at 1. apply fold_left_max_absorb.
  intros x Hx. apply in_map_iff in Hx as [p [<- Hp]]. now apply batch_time_le_latest.
Qed.

Lemma polled_again times batches :
  List.length times = List.length batches ->
  let polled := map (fun tb => latest (fst tb) (snd tb)) (combine times batches) in
  List.concat (map (fun tb => fresh (fst tb) (snd tb)) (combine polled batches)) = [] /\
  map (fun tb => latest (fst tb) (snd tb)) (combine polled batches) = polled.
Proof.
  revert batches. induction times as [| t times IH]; intros [| b batches] Hlen;
    try discriminate; simpl; [now split |].
  injection Hlen as Hlen. destruct (IH batches Hlen) as [Hfresh Hlatest].
  rewrite fresh_after_latest, latest_idempotent. simpl. split; [exact Hfresh |].
  now f_equal.
Qed.

(** Polling twice is polling once: when the feeds serve the same titled
    articles again, the second poll returns no article and leaves every
    last-seen time where the first poll put it.  An article whose time
    equals the last-seen time is not forwarded. *)
Theorem getArticles_again self batches :
  Forall2 serves (_article_getters self) batches ->
  List.length (_last_article_times self) = List.length (_article_getters self) ->
  Forall titled batches ->
  fst (getArticles (snd (getArticles self))) = Ok [] /\
  _last_article_times (snd (getArticles (snd (getArticles self))))
  = _last_article_times (snd (getArticles self)).
Proof.
  intros Hserves Hlen Htitled.
  destruct (getArticles_served_state self batches Hserves Hlen Htitled)
    as (_ & Htimes & Hgetters).
  assert (Hbatches : List.length (_last_article_times self) = List.length batches).
  { rewrite Hlen. eapply Forall2_length. exact Hserves. }
  destruct (polled_again _ _ Hbatches) as [Hfresh Hlatest].
  destruct (getArticles_served_state (snd (getArticles self)) batches) as (H1 & H2 & _).
  - now rewrite Hgetters.
  - rewrite Hgetters, Htimes, length_map, length_combine, <- Hlen, Hbatches.
    apply Nat.min_id.
  - exact Htitled.
  - rewrite H1, H2, Htimes. now rewrite Hfresh, Hlatest.
Qed.

Lemma getArticles_again_witness :
  fst (getArticles (snd (getArticles one_feed))) = Ok [] /\
  _last_article_times (snd (getArticles (snd (getArticles one_feed))))
  = _last_article_times (snd (getArticles one_feed)).
Proof.
  apply (getArticles_again one_feed [two_articles]).
  - repeat constructor.
  - reflexivity.
  - repeat constructor; discriminate.
Defined.

Lemma read_articles_untitled i items articles last self seen :
  nth_error (_last_article_times self) i = Some seen ->
  Exists (fun p => seen < snd p /\ dict_get "title" (fst p) = None) items ->
  fst (read_articles i items articles last self) = Raise (KeyError "title").
Proof.
  intros Hseen Hex. revert articles last self Hseen.
  induction items as [| [art time] items IH]; intros articles last self Hseen;
    [inversion Hex |].
  simpl. rewrite Hseen.
  destruct (Z.ltb_spec seen time) as [Hnew | Hold].
  - destruct (dict_get "title" art) as [title |] eqn:Etitle; [| reflexivity].
    apply IH; [| exact Hseen].
    inversion Hex as [? ? [_ H] | ? ? H]; subst; [| exact H].
    simpl in H. congruence.
  - apply IH; [| exact Hseen].
    inversion Hex as [? ? [H _] | ? ? H]; subst; [simpl in H; lia | exact H].
Qed.

(** An article without a ['title'] stops the poll: when the first feed
    serves an article that is newer than its last-seen time and has no
    title, [getArticles] raises [KeyError], and no last-seen time moves, so
    the same article is met again at the next poll. *)
Theorem getArticles_untitled self g getters seen times items :
  _article_getters self = g :: getters ->
  _last_article_times self = seen :: times ->
  g (feed_trace self) = Ok items ->
  Exists (fun p => seen < snd p /\ dict_get "title" (fst p) = None) items ->
  fst (getArticles self) = Raise (KeyError "title") /\
  _last_article_times (snd (getArticles self)) = _last_article_times self.
Proof.
  intros Hg Ht Hitems Hex. unfold getArticles. rewrite Hg, Ht.
  cbn [combine poll_feeds]. rewrite Hitems.
  set (called := mkArticleProvider _ _ _).
  assert (Hseen : nth_error (_last_article_times called) 0 = Some seen)
    by (simpl; now rewrite Ht).
  pose proof (read_articles_untitled 0 items [] seen called seen Hseen Hex) as Hraise.
  destruct (read_articles_frame 0 items [] seen called) as [Htimes _].
  destruct (read_articles 0 items [] seen called) as [[[articles' last'] | e] self'];
    simpl in Hraise, Htimes; [discriminate |].
  injection Hraise as ->. simpl. split; [reflexivity |]. now rewrite Htimes, Ht.
Qed.

Lemma getArticles_untitled_witness :
  fst (getArticles (ArticleProvider__init__ [fun _ => Ok [([], t0)]]))
  = Raise (KeyError "title") /\
  _last_article_times (snd (getArticles (ArticleProvider__init__ [fun _ => Ok [([], t0)]])))
  = _last_article_times (ArticleProvider__init__ [fun _ => Ok [([], t0)]]).
Proof.
  apply (getArticles_untitled (ArticleProvider__init__ [fun _ => Ok [([], t0)]])
           (fun _ => Ok [([], t0)]) [] epoch [] [([], t0)]); try reflexivity.
  constructor. split; reflexivity.
Defined.

(** ** What the parser and the advisor hand on *)

Lemma is_ascii_digit_value c :
  is_ascii_digit c = true -> 0 <= Z.of_nat (nat_of_ascii c) - 48.
Proof.
  unfold is_ascii_digit. intros H. apply andb_true_iff in H as [H _].
  apply Nat.leb_le in H. lia.
Qed.

Lemma decimal_value_nonneg s acc :
  all_chars is_ascii_digit s = true -> 0 <= acc -> 0 <= decimal_value acc s.
Proof.
  revert acc. induction s as [| c s IH]; intros acc Hall Hacc; cbn [decimal_value];
    [exact Hacc |].
  cbn [all_chars] in Hall. apply andb_true_iff in Hall as [Hc Hs].
  apply IH; [exact Hs |]. pose proof (is_ascii_digit_value c Hc). lia.
Qed.

(** An advice that the parser returns is a sell of the second token with
    no duration, or a buy with a duration that is a number not below zero;
    the asset of a buy is the second token, [AVAX] standing for [all], so it
    is never [all]. *)
Theorem parse_advice_well_formed response advice :
  _parseGptResponse response = Ok (Some advice) ->
  exists token rest,
    split response = advice_position advice :: token :: rest /\
    ((advice_position advice = "sell" /\ advice_asset advice = token /\
      advice_duration advice = None) \/
     (advice_position advice = "buy" /\
      advice_asset advice = (if (token =? "all")%string then "AVAX" else token) /\
      advice_asset advice <> "all" /\
      exists n, advice_duration advice = Some n /\ 0 <= n)).
Proof.
  unfold _parseGptResponse.
  destruct (split response) as [| p [| token rest]]; simpl; try discriminate.
  destruct (p =? "sell")%string eqn:Esell.
  { intros H. injection H as <-. simpl. apply String.eqb_eq in Esell.
    exists token, rest. split; [reflexivity |]. left. auto. }
  destruct (p =? "buy")%string eqn:Ebuy; [| discriminate].
  destruct (List.length rest =? 2)%nat; [discriminate |].
  destruct rest as [| d rest]; [discriminate |].
  destruct (isdigit d); simpl; [| discriminate].
  destruct (int d) as [n | e] eqn:Eint; [| discriminate].
  intros H. injection H as <-. simpl. apply String.eqb_eq in Ebuy.
  exists token, (d :: rest). split; [reflexivity |]. right.
  repeat split; auto.
  - destruct (String.eqb_spec token "all"); [discriminate | assumption].
  - exists n. split; [reflexivity |].
    destruct (int_Ok_decimal _ _ Eint) as (_ & Hall & ->).
    apply decimal_value_nonneg; [exact Hall | lia].
Qed.

Lemma parse_advice_well_formed_witness :
  exists token rest,
    split "buy all 10" = "buy" :: token :: rest /\
    (("buy" = "sell" /\ "AVAX" = token /\ Some 10 = None) \/
     ("buy" = "buy" /\
      "AVAX" = (if (token =? "all")%string then "AVAX" else token) /\
      "AVAX" <> "all" /\
      exists n, Some 10 = Some n /\ 0 <= n)).
Proof.
  apply (parse_advice_well_formed "buy all 10" (mkTradeAdvice "buy" "AVAX" (Some 10))).
  reflexivity.
Defined.


